(** * Cart and order workflow of the meal-ordering client

    A shallow embedding of the cart store, the cart materializer and the
    order submission workflow of [src/pages/Checkout.tsx] and of
    [addToCart] in [src/pages/Meals.tsx], with the properties of the
    specification stated over it.

    Numbers.  A JavaScript [number] is an IEEE-754 binary64 value.  The
    [price] column is [DECIMAL(10,2)] and reaches the client as a [number]
    with a fractional part, so prices are modelled by Rocq's primitive
    binary64 floats, whose [+] and [*] round to nearest-even exactly as
    JavaScript does.  The columns [calories], [protein], [carbs], [fats] and
    the cart quantities are integers and are modelled by [Z]; an integer of
    the model stands for a number the code holds, so for one that binary64
    represents.  Binary64 holds
    every integer up to 2^53 in magnitude and rounds beyond: the totals and
    the plus and minus buttons round each result with [round64], and every
    property that depends on the value of an integer sum states the range in
    which the sum is exact.

    Strings.  Identifiers, toast texts and storage messages are [string].
    The delivery address is user input passed through [String.prototype.trim],
    which is defined on UTF-16 code units, so it is a list of code units. *)

From Stdlib Require Import ZArith NArith Floats.
From stdpp Require Import gmap strings list.

Set Warnings "-inexact-float".
Local Open Scope Z_scope.

(** ** JavaScript values *)

(** A string as its UTF-16 code units. *)
Definition jsstring := list N.

(** ECMAScript [WhiteSpace]: TAB, VT, FF, ZWNBSP and the Unicode
    space separators. *)
Definition isWhiteSpace (c : N) : bool :=
  ((c =? 0x9) || (c =? 0xB) || (c =? 0xC) || (c =? 0x20) || (c =? 0xA0)
   || (c =? 0x1680) || ((0x2000 <=? c) && (c <=? 0x200A))
   || (c =? 0x202F) || (c =? 0x205F) || (c =? 0x3000) || (c =? 0xFEFF))%N.

(** ECMAScript [LineTerminator]: LF, CR, LS, PS. *)
Definition isLineTerminator (c : N) : bool :=
  ((c =? 0xA) || (c =? 0xD) || (c =? 0x2028) || (c =? 0x2029))%N.

Definition isTrimmed (c : N) : bool := isWhiteSpace c || isLineTerminator c.

Fixpoint trimStart (s : jsstring) : jsstring :=
  match s with
  | [] => []
  | c :: s' => if isTrimmed c then trimStart s' else s
  end.

Definition trimEnd (s : jsstring) : jsstring := rev (trimStart (rev s)).

(** [String.prototype.trim]. *)
Definition trim (s : jsstring) : jsstring := trimEnd (trimStart s).

(** The number that an integer denotes: the binary64 value nearest to it. *)
Definition number_of_Z (z : Z) : float :=
  SF2Prim (binary_normalize prec emax z 0 false).

(** The integer that a number denotes, when it is one. *)
Definition Z_of_number (f : float) : option Z :=
  match Prim2SF f with
  | S754_zero _ => Some 0
  | S754_finite s m e =>
      let v := if 0 <=? e then Z.pos m * 2 ^ e else Z.pos m / 2 ^ (- e) in
      if (0 <=? e) || (Z.pos m mod 2 ^ (- e) =? 0)
      then Some (if s then - v else v)
      else None
  | _ => None
  end.

(** An integer rounded to binary64 (to nearest, ties to the even
    significand), for magnitudes below 2^1024: unchanged up to 2^53, and
    beyond that the nearest multiple of the spacing 2^e of its binade. *)
Definition round64 (z : Z) : Z :=
  let a := Z.abs z in
  if a <=? 2 ^ 53 then z
  else
    let e := Z.log2 a - 52 in
    let q := a / 2 ^ e in
    let r := a mod 2 ^ e in
    let half := 2 ^ (e - 1) in
    let q' := if r <? half then q
              else if half <? r then q + 1
              else if Z.even q then q else q + 1 in
    Z.sgn z * (q' * 2 ^ e).

(** [x + y] and [x * y] on integer-valued numbers. *)
Definition add64 (x y : Z) : Z := round64 (x + y).

Definition mul64 (x y : Z) : Z := round64 (x * y).

(** ** Rows and view state *)

Module Meal.
(** [interface Meal] of Checkout.tsx. *)
Record t := mk {
  id : string;
  name : string;
  price : float;
  calories : Z;
  protein : Z;
  carbs : Z;
  fats : Z
}.
End Meal.

Module CartItem.
(** [interface CartItem extends Meal]: the meal's fields and [quantity]. *)
Record t := mk {
  meal : Meal.t;
  quantity : Z
}.
Definition id (i : t) : string := Meal.id (meal i).
Definition price (i : t) : float := Meal.price (meal i).
Definition calories (i : t) : Z := Meal.calories (meal i).
Definition protein (i : t) : Z := Meal.protein (meal i).
Definition carbs (i : t) : Z := Meal.carbs (meal i).
Definition fats (i : t) : Z := Meal.fats (meal i).
End CartItem.

Module Macros.
(** The accumulator of [totalMacros]. *)
Record t := mk {
  calories : Z;
  protein : Z;
  carbs : Z;
  fats : Z
}.
End Macros.

Module Order.
(** A row of [public.orders], with the columns the client writes. *)
Record t := mk {
  id : string;
  user_id : string;
  total_price : float;
  delivery_address : jsstring;
  status : string;
  payment_status : string
}.
End Order.

Module OrderItem.
(** A row of [public.order_items], with the columns the client writes. *)
Record t := mk {
  order_id : string;
  meal_id : string;
  quantity : Z;
  price_at_purchase : float
}.
End OrderItem.

(** The tables of the storage service that the two pages touch. *)
Record Db := mkDb {
  meals : list Meal.t;
  orders : list Order.t;
  order_items : list OrderItem.t
}.

Record Toast := mkToast {
  title : string;
  description : option string;
  destructive : bool
}.

(** Everything the handlers read or write: the value stored under the key
    ["cart"] of [localStorage] ([None] when the key is absent), the storage
    service, the toasts shown and the routes navigated to (oldest first), the
    [cart] state of the Meals page and the three states of the Checkout
    page. *)
Record World := mkWorld {
  localStorage : option (gmap string Z);
  db : Db;
  toasts : list Toast;
  navigated : list string;
  cart : gmap string Z;
  cartItems : list CartItem.t;
  loading : bool;
  deliveryAddress : jsstring
}.

Definition setItem (c : gmap string Z) (w : World) : World :=
  mkWorld (Some c) (db w) (toasts w) (navigated w) (cart w) (cartItems w)
          (loading w) (deliveryAddress w).

Definition removeItem (w : World) : World :=
  mkWorld None (db w) (toasts w) (navigated w) (cart w) (cartItems w)
          (loading w) (deliveryAddress w).

Definition setDb (d : Db) (w : World) : World :=
  mkWorld (localStorage w) d (toasts w) (navigated w) (cart w) (cartItems w)
          (loading w) (deliveryAddress w).

Definition toast (t : Toast) (w : World) : World :=
  mkWorld (localStorage w) (db w) (toasts w ++ [t]) (navigated w) (cart w)
          (cartItems w) (loading w) (deliveryAddress w).

Definition navigate (path : string) (w : World) : World :=
  mkWorld (localStorage w) (db w) (toasts w) (navigated w ++ [path]) (cart w)
          (cartItems w) (loading w) (deliveryAddress w).

Definition setCart (c : gmap string Z) (w : World) : World :=
  mkWorld (localStorage w) (db w) (toasts w) (navigated w) c (cartItems w)
          (loading w) (deliveryAddress w).

Definition setCartItems (l : list CartItem.t) (w : World) : World :=
  mkWorld (localStorage w) (db w) (toasts w) (navigated w) (cart w) l
          (loading w) (deliveryAddress w).

Definition setLoading (b : bool) (w : World) : World :=
  mkWorld (localStorage w) (db w) (toasts w) (navigated w) (cart w)
          (cartItems w) b (deliveryAddress w).

Definition setDeliveryAddress (a : jsstring) (w : World) : World :=
  mkWorld (localStorage w) (db w) (toasts w) (navigated w) (cart w)
          (cartItems w) (loading w) a.

(** The mapping the cart store holds: an absent key reads as no entries,
    as both pages treat it. *)
Definition stored (w : World) : gmap string Z := default ∅ (localStorage w).

(** ** The storage service

    The replies of the service are inputs of the model: whether the current
    session has a user, whether each request is accepted or rejected (with
    the message of the rejection), and the key the service gives a new
    order.  A rejected write stores nothing; an accepted one appends its
    rows. *)

Inductive StorageReply :=
  | Accept
  | Reject (message : string).

Record Backend := mkBackend {
  getUser : option string;
  meals_select : StorageReply;
  orders_insert : StorageReply;
  new_order_id : string;
  order_items_insert : StorageReply
}.

(** The [{ data, error }] pair a request resolves to. *)
Record Response (A : Type) := mkResponse {
  data : option A;
  error : option string
}.
Arguments mkResponse {A} _ _.
Arguments data {A} _.
Arguments error {A} _.

(** [from("meals").select("*").in("id", mealIds)]: the rows whose [id] is one
    of [mealIds]. *)
Definition select_meals_in (be : Backend) (d : Db) (mealIds : list string)
  : Response (list Meal.t) :=
  match meals_select be with
  | Accept => mkResponse (Some (filter (λ m, Meal.id m ∈ mealIds) (meals d))) None
  | Reject e => mkResponse None (Some e)
  end.

(** [from("orders").insert({...}).select().single()].  The row is recorded
    with the numbers as the client sent them; what the service keeps in its
    [DECIMAL(10,2)] columns is its own rounding of them to two places, which
    no property below depends on. *)
Definition insert_order (be : Backend) (user_id : string) (total_price : float)
    (delivery_address : jsstring) (status payment_status : string) (d : Db)
  : Response Order.t * Db :=
  match orders_insert be with
  | Accept =>
      let row := Order.mk (new_order_id be) user_id total_price
                          delivery_address status payment_status in
      (mkResponse (Some row) None,
       mkDb (meals d) (orders d ++ [row]) (order_items d))
  | Reject e => (mkResponse None (Some e), d)
  end.

(** [from("order_items").insert(orderItems)]: one batched write. *)
Definition insert_order_items (be : Backend) (rows : list OrderItem.t) (d : Db)
  : Response unit * Db :=
  match order_items_insert be with
  | Accept => (mkResponse (Some tt) None,
               mkDb (meals d) (orders d) (order_items d ++ rows))
  | Reject e => (mkResponse None (Some e), d)
  end.

(** ** Cart store and materializer (Checkout.tsx, Meals.tsx) *)

(** [Object.keys(cart)]. *)
Definition keys (c : gmap string Z) : list string := (map_to_list c).*1.

(** [cart[mealId]] read as a number.  The key is present at the one place
    that reads it, because the rows come from [select_meals_in] on the keys
    of the same mapping; the value given here for an absent key is never
    used by [loadCartItems]. *)
Definition index (c : gmap string Z) (mealId : string) : Z :=
  default 0 (c !! mealId).

(** [x || 0] on a possibly missing number. *)
Definition or_zero (x : option Z) : Z :=
  match x with
  | Some q => if q =? 0 then 0 else q
  | None => 0
  end.

(** The [map] of loadCartItems: each fetched meal with its cart quantity. *)
Definition materialize (c : gmap string Z) (rows : list Meal.t)
  : list CartItem.t :=
  map (λ meal, CartItem.mk meal (index c (Meal.id meal))) rows.

Definition loadCartItems (be : Backend) (w : World) : World :=
  match localStorage w with
  | None => setCartItems [] w
  | Some c =>
      let mealIds := keys c in
      if bool_decide (length mealIds = 0%nat) then setCartItems [] w
      else
        let r := select_meals_in be (db w) mealIds in
        match error r with
        | Some message =>
            toast (mkToast "error loading cart" (Some message) true) w
        | None => setCartItems (materialize c (default [] (data r))) w
        end
  end.

(** [removeFromCart].  The refresh it starts is asynchronous: the toast is
    shown before the reply of the storage service is handled. *)
Definition removeFromCart (be : Backend) (mealId : string) (w : World) : World :=
  match localStorage w with
  | None => w
  | Some c =>
      let w1 := setItem (delete mealId c) w in
      let w2 := toast (mkToast "removed from cart" None false) w1 in
      loadCartItems be w2
  end.

Definition updateQuantity (be : Backend) (mealId : string) (newQuantity : Z)
    (w : World) : World :=
  if newQuantity <? 1 then removeFromCart be mealId w
  else
    match localStorage w with
    | None => w
    | Some c => loadCartItems be (setItem (<[mealId := newQuantity]> c) w)
    end.

(** The mount effect of the Meals page: the [cart] state starts as [{}] and
    takes the stored mapping when there is one. *)
Definition mountMeals (w : World) : World :=
  match localStorage w with
  | Some c => setCart c w
  | None => setCart ∅ w
  end.

(** [addToCart].  The increment is written exactly: it is the code's for
    every quantity of magnitude below 2^53 (see [round64]), and the
    properties on the value of repeated increments state that range. *)
Definition addToCart (mealId : string) (w : World) : World :=
  let newCart := <[mealId := or_zero (cart w !! mealId) + 1]> (cart w) in
  toast (mkToast "added to cart" (Some "meal has been added to your cart") false)
        (setItem newCart (setCart newCart w)).

(** [cartItems.reduce((sum, item) => sum + item.price * item.quantity, 0)]. *)
Definition totalPrice (items : list CartItem.t) : float :=
  fold_left
    (λ sum item,
       (sum + CartItem.price item * number_of_Z (CartItem.quantity item))%float)
    items 0%float.

Definition totalMacros (items : list CartItem.t) : Macros.t :=
  fold_left
    (λ acc item,
       Macros.mk
         (add64 (Macros.calories acc)
                (mul64 (CartItem.calories item) (CartItem.quantity item)))
         (add64 (Macros.protein acc)
                (mul64 (CartItem.protein item) (CartItem.quantity item)))
         (add64 (Macros.carbs acc)
                (mul64 (CartItem.carbs item) (CartItem.quantity item)))
         (add64 (Macros.fats acc)
                (mul64 (CartItem.fats item) (CartItem.quantity item))))
    items (Macros.mk 0 0 0 0).

(** ** Order submission (Checkout.tsx, handlePlaceOrder) *)

(** [message || "unknown error"] on an optional message. *)
Definition or_unknown (message : option string) : string :=
  match message with
  | Some m => if decide (m = "") then "unknown error" else m
  | None => "unknown error"
  end.

(** The rows of the batched write. *)
Definition orderItems (order : Order.t) (items : list CartItem.t)
  : list OrderItem.t :=
  map (λ item, OrderItem.mk (Order.id order) (CartItem.id item)
                            (CartItem.quantity item) (CartItem.price item))
      items.

Definition handlePlaceOrder (be : Backend) (w : World) : World :=
  if decide (trim (deliveryAddress w) = []) then
    toast (mkToast "delivery address required"
                   (Some "please enter your delivery address") true) w
  else if decide (length (cartItems w) = 0%nat) then
    toast (mkToast "cart is empty"
                   (Some "add some meals to your cart first") true) w
  else
    let w1 := setLoading true w in
    match getUser be with
    | None => navigate "/auth" w1
    | Some user =>
        let '(r, d) := insert_order be user (totalPrice (cartItems w1))
                         (deliveryAddress w1) "pending" "pending" (db w1) in
        let w2 := setDb d w1 in
        match error r, data r with
        | None, Some order =>
            let '(ri, di) :=
              insert_order_items be (orderItems order (cartItems w2)) (db w2) in
            let w3 := setDb di w2 in
            let w4 :=
              match error ri with
              | Some message =>
                  toast (mkToast "error saving order items" (Some message) true) w3
              | None =>
                  navigate "/dashboard"
                    (toast (mkToast "order placed!"
                              (Some "your meal prep order has been confirmed")
                              false)
                           (removeItem w3))
              end in
            setLoading false w4
        | orderError, _ =>
            setLoading false
              (toast (mkToast "error placing order"
                              (Some (or_unknown orderError)) true) w2)
        end
    end.

(** ** How a submission settles

    The workflow reports its outcome through toasts; each outcome of the
    specification is the toast the handler shows for it. *)

Inductive Reason := missing_address | empty_cart.

Inductive Settled :=
  | Success
  | PartialFailure (report : string)
  | RejectedInput (reason : Reason).

Definition settled_of_toast (t : Toast) : option Settled :=
  if decide (title t = "delivery address required") then
    Some (RejectedInput missing_address)
  else if decide (title t = "cart is empty") then
    Some (RejectedInput empty_cart)
  else if decide (title t = "error placing order") then
    Some (PartialFailure (default "" (description t)))
  else if decide (title t = "error saving order items") then
    Some (PartialFailure (default "" (description t)))
  else if decide (title t = "order placed!") then Some Success
  else None.

(** The outcomes a submission from [w] reports. *)
Definition reported (be : Backend) (w : World) : list Settled :=
  omap settled_of_toast
       (drop (length (toasts w)) (toasts (handlePlaceOrder be w))).

(** The lines stored for an order. *)
Definition lines_of (orderId : string) (d : Db) : list OrderItem.t :=
  filter (λ l, OrderItem.order_id l = orderId) (order_items d).

(** Per-item sums, as the specification writes them. *)
Definition Zsum (l : list Z) : Z := foldr Z.add 0 l.

(** The addends of the price total, in list order. *)
Definition line_prices (items : list CartItem.t) : list float :=
  map (λ item,
         (CartItem.price item * number_of_Z (CartItem.quantity item))%float)
      items.

(** The amounts that a nutritional total adds up: the per-unit amount [f]
    times the quantity, for each line item. *)
Definition amounts (f : CartItem.t → Z) (items : list CartItem.t) : list Z :=
  map (λ i, f i * CartItem.quantity i) items.

(** The integers of [l] can be added in any order without leaving the range
    in which binary64 is exact. *)
Definition exact_sum (l : list Z) : Prop := Zsum (map Z.abs l) ≤ 2 ^ 53.

Definition macros_exact (items : list CartItem.t) : Prop :=
  exact_sum (amounts CartItem.calories items)
  ∧ exact_sum (amounts CartItem.protein items)
  ∧ exact_sum (amounts CartItem.carbs items)
  ∧ exact_sum (amounts CartItem.fats items).

(** The quantities that the Meals page holds. *)
Definition quantities (w : World) : list Z := (map_to_list (cart w)).*2.

(** ** Named toasts, rows and example data *)

Definition toast_missing_address : Toast :=
  mkToast "delivery address required"
          (Some "please enter your delivery address") true.

Definition toast_empty_cart : Toast :=
  mkToast "cart is empty" (Some "add some meals to your cart first") true.

Definition toast_order_placed : Toast :=
  mkToast "order placed!" (Some "your meal prep order has been confirmed") false.

(** The order row a submission from [w] by [user] asks storage to create. *)
Definition order_of (be : Backend) (user : string) (w : World) : Order.t :=
  Order.mk (new_order_id be) user (totalPrice (cartItems w))
           (deliveryAddress w) "pending" "pending".

(** Three meals priced 0.10, 0.20 and 0.30, one of each, in two orders. *)
Definition cents_meal (id : string) (p : float) : CartItem.t :=
  CartItem.mk (Meal.mk id id p 0 0 0 0) 1.

Definition items_ascending : list CartItem.t :=
  [cents_meal "a" 0.1%float; cents_meal "b" 0.2%float; cents_meal "c" 0.3%float].

Definition items_descending : list CartItem.t :=
  [cents_meal "c" 0.3%float; cents_meal "b" 0.2%float; cents_meal "a" 0.1%float].

(** Pairs of integers that binary64 holds, around and beyond 2^53, on which
    [add64] and [mul64] are compared with the primitive operations. *)
Definition sample_pairs : list (Z * Z) :=
  [(5, 7); (-5, 3); (450, 2); (2 ^ 53 - 1, 1); (2 ^ 53, 1); (2 ^ 53, 2);
   (2 ^ 53, 3); (2 ^ 53 + 2, 1); (2 ^ 53 + 2, 3); (2 ^ 54, 1); (2 ^ 54, 2);
   (2 ^ 54, 3); (2 ^ 54, 5); (2 ^ 54, 6); (2 ^ 54, 7); (- 2 ^ 53, -1);
   (- 2 ^ 53, -3); (2 ^ 53, - 2 ^ 53 - 2); (2 ^ 60, 2 ^ 7); (2 ^ 60, 2 ^ 7 + 1);
   (2 ^ 60, 3 * 2 ^ 7); (2 ^ 60, 2 ^ 8 - 1); (2 ^ 62, 2 ^ 62);
   (3 * 2 ^ 52, 3 * 2 ^ 52); (2 ^ 100, 2 ^ 47); (2 ^ 100, 2 ^ 47 + 1);
   (2 ^ 100 + 2 ^ 48, 2 ^ 47); (2 ^ 31 - 1, 2 ^ 31 - 1)].

(** Line items with one calorie per unit, one of them with quantity 2^53,
    in two orders. *)
Definition unit_calorie (id : string) (q : Z) : CartItem.t :=
  CartItem.mk (Meal.mk id id 1%float 1 0 0 0) q.

Definition items_large_first : list CartItem.t :=
  [unit_calorie "a" (2 ^ 53); unit_calorie "b" 1; unit_calorie "c" 1].

Definition items_large_last : list CartItem.t :=
  [unit_calorie "b" 1; unit_calorie "c" 1; unit_calorie "a" (2 ^ 53)].

(** Two chicken bowls and a beef bowl, in both orders. *)
Definition items_two_meals : list CartItem.t :=
  [CartItem.mk (Meal.mk "A" "chicken bowl" 18.9%float 450 45 40 12) 2;
   CartItem.mk (Meal.mk "B" "beef protein bowl" 22.9%float 580 42 55 20) 1].

Definition items_two_meals_swapped : list CartItem.t :=
  [CartItem.mk (Meal.mk "B" "beef protein bowl" 22.9%float 580 42 55 20) 1;
   CartItem.mk (Meal.mk "A" "chicken bowl" 18.9%float 450 45 40 12) 2].

(** The catalog row of the specification's example. *)
Definition meal_A (name : string) : Meal.t :=
  Meal.mk "A" name 18.9%float 450 45 40 12.

(** A catalog with meal A, a store holding [{A: 2}], the address
    ["1 Main"], and a service that accepts everything. *)
Definition db_example : Db := mkDb [meal_A "chicken bowl"] [] [].

Definition world_example : World :=
  mkWorld (Some {["A" := 2]}) db_example [] [] ∅ [] false [].

Definition address_example : jsstring := [0x31; 0x20; 0x4D; 0x61; 0x69; 0x6E]%N.

Definition backend_accepting : Backend :=
  mkBackend (Some "u1") Accept Accept "o1" Accept.

Definition backend_rejecting_order : Backend :=
  mkBackend (Some "u1") Accept (Reject "permission denied") "o1" Accept.

Definition backend_rejecting_lines : Backend :=
  mkBackend (Some "u1") Accept Accept "o1" (Reject "permission denied").

(** The Checkout page of [world_example] after its cart is loaded and the
    address typed. *)
Definition world_ready : World :=
  setDeliveryAddress address_example (loadCartItems backend_accepting world_example).

(** A page with a blank address and no line items. *)
Definition world_blank_empty : World :=
  mkWorld None (mkDb [] [] []) [] [] ∅ [] false [0x20; 0x9]%N.

(** The catalog after the price of meal A was raised to 21.50. *)
Definition catalog_repriced : list Meal.t :=
  [Meal.mk "A" "chicken bowl" 21.5%float 450 45 40 12].

(** ** The rest of the two pages *)

(** [Object.values(cart).reduce((sum, qty) => sum + qty, 0)] of the Meals
    page, the number shown on its cart button.  The quantities are taken in
    the order of [map_to_list]; the order matters only to a sum that leaves
    the exact range. *)
Definition cartItemCount (w : World) : Z :=
  fold_left (λ sum qty, add64 sum qty) ((map_to_list (cart w)).*2) 0.

(** The three buttons on the card of a line item (Checkout.tsx). *)
Definition clickTrash (be : Backend) (item : CartItem.t) (w : World) : World :=
  removeFromCart be (CartItem.id item) w.

Definition clickMinus (be : Backend) (item : CartItem.t) (w : World) : World :=
  updateQuantity be (CartItem.id item) (add64 (CartItem.quantity item) (-1)) w.

Definition clickPlus (be : Backend) (item : CartItem.t) (w : World) : World :=
  updateQuantity be (CartItem.id item) (add64 (CartItem.quantity item) 1) w.

(** [disabled={loading || cartItems.length === 0}] of the place-order
    button. *)
Definition placeOrderDisabled (w : World) : bool :=
  loading w || bool_decide (length (cartItems w) = 0%nat).

(** A string made only of code units that [trim] removes. *)
Definition blank (s : jsstring) : Prop := Forall (λ c, isTrimmed c = true) s.

(** Every stored quantity is at least 1. *)
Definition positive_quantities (c : gmap string Z) : Prop :=
  ∀ k q, c !! k = Some q → 1 ≤ q.


(** A second service, accepting everything, that keys its order ["o2"]. *)
Definition backend_accepting_again : Backend :=
  mkBackend (Some "u1") Accept Accept "o2" Accept.

Definition backend_signed_out : Backend :=
  mkBackend None Accept Accept "o1" Accept.

Definition backend_meals_down : Backend :=
  mkBackend (Some "u1") (Reject "network error") Accept "o1" Accept.

(** A store with two entries over the catalog of [db_example]. *)
Definition world_two_entries : World :=
  mkWorld (Some {["A" := 2; "B" := 1]}) db_example [] [] ∅ [] false [].

(** A fresh mount of the Checkout page: its three states start as [[]],
    [false] and [""], and the mount effect loads the cart. *)
Definition mountCheckout (be : Backend) (w : World) : World :=
  loadCartItems be
    (mkWorld (localStorage w) (db w) (toasts w) (navigated w) (cart w)
             [] false []).

(** The branch a submission takes. *)
Inductive Branch :=
  | blank_address
  | no_items
  | signed_out
  | order_rejected (user message : string)
  | lines_rejected (user message : string)
  | accepted (user : string).

Definition branch_taken (be : Backend) (w : World) (b : Branch) : Prop :=
  match b with
  | blank_address => trim (deliveryAddress w) = []
  | no_items => trim (deliveryAddress w) ≠ [] ∧ cartItems w = []
  | signed_out =>
      trim (deliveryAddress w) ≠ [] ∧ cartItems w ≠ [] ∧ getUser be = None
  | order_rejected user message =>
      trim (deliveryAddress w) ≠ [] ∧ cartItems w ≠ []
      ∧ getUser be = Some user ∧ orders_insert be = Reject message
  | lines_rejected user message =>
      trim (deliveryAddress w) ≠ [] ∧ cartItems w ≠ []
      ∧ getUser be = Some user ∧ orders_insert be = Accept
      ∧ order_items_insert be = Reject message
  | accepted user =>
      trim (deliveryAddress w) ≠ [] ∧ cartItems w ≠ []
      ∧ getUser be = Some user ∧ orders_insert be = Accept
      ∧ order_items_insert be = Accept
  end.


(** The line item of [world_ready], and the same after one more unit. *)
Definition item_A2 : CartItem.t := CartItem.mk (meal_A "chicken bowl") 2.

Definition item_A3 : CartItem.t := CartItem.mk (meal_A "chicken bowl") 3.

(** * Properties *)

Example number_of_Z_2 : number_of_Z 2 = 2%float.
Proof. reflexivity. Qed.

(** On the sample pairs [add64] and [mul64] give what the primitive
    binary64 addition and multiplication give. *)
Example add64_agrees_with_binary64 :
  Forall (λ p, Z_of_number (number_of_Z p.1 + number_of_Z p.2)%float
               = Some (add64 p.1 p.2)) sample_pairs.
Proof. repeat constructor. Qed.

Example mul64_agrees_with_binary64 :
  Forall (λ p, Z_of_number (number_of_Z p.1 * number_of_Z p.2)%float
               = Some (mul64 p.1 p.2)) sample_pairs.
Proof. repeat constructor. Qed.

Example round64_ties_to_even :
  round64 (2 ^ 53 + 1) = 2 ^ 53 ∧ round64 (2 ^ 53 + 3) = 2 ^ 53 + 4
  ∧ round64 (- 2 ^ 53 - 1) = - 2 ^ 53.
Proof. by vm_compute. Qed.

Example trim_blank : trim [0x20; 0x9; 0xA0; 0xA]%N = [].
Proof. reflexivity. Qed.

Example trim_inner : trim [0x20; 0x41; 0x20; 0x42; 0xD]%N = [0x41; 0x20; 0x42]%N.
Proof. reflexivity. Qed.

(** ** Frame lemmas of the handlers *)

Lemma loadCartItems_localStorage be w :
  localStorage (loadCartItems be w) = localStorage w.
Proof.
  unfold loadCartItems.
  destruct (localStorage w) as [c|] eqn:E; [|by rewrite <- E].
  case_bool_decide; [by rewrite <- E|].
  destruct (error _); by rewrite <- E.
Qed.

Lemma loadCartItems_db be w : db (loadCartItems be w) = db w.
Proof.
  unfold loadCartItems.
  destruct (localStorage w) as [c|]; [|done].
  case_bool_decide; [done|]. by destruct (error _).
Qed.

Lemma removeFromCart_stored be k w :
  stored (removeFromCart be k w) = delete k (stored w).
Proof.
  unfold removeFromCart, stored.
  destruct (localStorage w) as [c|] eqn:E.
  - by rewrite loadCartItems_localStorage.
  - rewrite E. simpl. by rewrite delete_empty.
Qed.

Lemma updateQuantity_below_one be k q w :
  q < 1 → updateQuantity be k q w = removeFromCart be k w.
Proof. intros Hq. unfold updateQuantity. destruct (Z.ltb_spec q 1); [done|lia]. Qed.

Lemma updateQuantity_stored be k q w :
  1 ≤ q →
  stored (updateQuantity be k q w) =
    match localStorage w with
    | Some c => <[k := q]> c
    | None => ∅
    end.
Proof.
  intros Hq. unfold updateQuantity, stored.
  destruct (Z.ltb_spec q 1) as [?|_]; [lia|].
  destruct (localStorage w) as [c|] eqn:E.
  - by rewrite loadCartItems_localStorage.
  - by rewrite E.
Qed.

(** The [cart] state of the Meals page mirrors the store from the mount on. *)
Lemma mountMeals_sync w : cart (mountMeals w) = stored (mountMeals w).
Proof.
  unfold mountMeals, stored.
  destruct (localStorage w) as [c|] eqn:E; simpl; by rewrite E.
Qed.

Lemma mountMeals_stored w : stored (mountMeals w) = stored w.
Proof.
  unfold mountMeals, stored.
  destruct (localStorage w) as [c|] eqn:E; simpl; by rewrite E.
Qed.

Lemma addToCart_sync k w : cart (addToCart k w) = stored (addToCart k w).
Proof. done. Qed.

Lemma adds_sync (adds : list string) w :
  cart w = stored w →
  cart (foldl (λ w a, addToCart a w) w adds) =
  stored (foldl (λ w a, addToCart a w) w adds).
Proof.
  revert w. induction adds as [|a adds IH]; intros w Hw; [done|].
  simpl. apply IH, addToCart_sync.
Qed.

Lemma addToCart_stored k w :
  stored (addToCart k w) = <[k := or_zero (cart w !! k) + 1]> (cart w).
Proof. done. Qed.

(** Adding increments the stored quantity, and stores 1 for a meal that
    had no entry. *)
Lemma addToCart_target k w :
  stored (addToCart k w) !! k = Some (or_zero (cart w !! k) + 1)
  ∧ (cart w !! k = None → stored (addToCart k w) !! k = Some 1).
Proof.
  rewrite addToCart_stored, lookup_insert_eq. split; [done|].
  by intros ->.
Qed.

(** ** Cart store *)

(** C9.  Setting a quantity that is zero or negative leaves the world exactly
    as removing the entry does, and no quantity is then stored for the key. *)
Theorem updateQuantity_nonpositive_removes be k q w :
  q ≤ 0 →
  updateQuantity be k q w = removeFromCart be k w
  ∧ stored (updateQuantity be k q w) = delete k (stored w)
  ∧ stored (updateQuantity be k q w) !! k = None.
Proof.
  intros Hq.
  rewrite updateQuantity_below_one by lia.
  rewrite removeFromCart_stored. split_and!; [done..|].
  apply lookup_delete_eq.
Qed.

(** C10.  Adding a meal on the Meals page (mounted over any store, after
    any earlier additions), setting a quantity and removing an entry each
    leave the stored quantity of every other meal as it was. *)
Theorem cart_mutation_keeps_other_entries be k k' q (adds : list string) w :
  k' ≠ k →
  let wm := foldl (λ w a, addToCart a w) (mountMeals w) adds in
  stored (addToCart k wm) !! k' = stored wm !! k'
  ∧ stored (updateQuantity be k q w) !! k' = stored w !! k'
  ∧ stored (removeFromCart be k w) !! k' = stored w !! k'.
Proof.
  intros Hne wm. split_and!.
  - rewrite addToCart_stored. rewrite lookup_insert_ne by done.
    unfold wm. by rewrite adds_sync by apply mountMeals_sync.
  - destruct (Z.le_gt_cases 1 q) as [Hq|Hq].
    + rewrite updateQuantity_stored by done. unfold stored.
      destruct (localStorage w); [|done]. by rewrite lookup_insert_ne.
    + rewrite updateQuantity_below_one by lia.
      rewrite removeFromCart_stored. by rewrite lookup_delete_ne.
  - rewrite removeFromCart_stored. by rewrite lookup_delete_ne.
Qed.

(** ** The branches of [handlePlaceOrder] *)

Lemma handlePlaceOrder_blank be w :
  trim (deliveryAddress w) = [] →
  handlePlaceOrder be w = toast toast_missing_address w.
Proof. intros H. unfold handlePlaceOrder. by rewrite decide_True. Qed.

Lemma handlePlaceOrder_no_items be w :
  trim (deliveryAddress w) ≠ [] → cartItems w = [] →
  handlePlaceOrder be w = toast toast_empty_cart w.
Proof.
  intros Ha Hc. unfold handlePlaceOrder.
  rewrite decide_False by done. rewrite Hc. by rewrite decide_True.
Qed.

Lemma handlePlaceOrder_order_rejected be w user message :
  trim (deliveryAddress w) ≠ [] → cartItems w ≠ [] →
  getUser be = Some user → orders_insert be = Reject message →
  handlePlaceOrder be w =
    setLoading false
      (toast (mkToast "error placing order" (Some (or_unknown (Some message))) true)
             (setDb (db w) (setLoading true w))).
Proof.
  intros Ha Hc Hu Ho. unfold handlePlaceOrder.
  rewrite decide_False by done.
  rewrite decide_False by (by destruct (cartItems w)).
  rewrite Hu. unfold insert_order. simpl. by rewrite Ho.
Qed.

Lemma handlePlaceOrder_lines_rejected be w user message :
  trim (deliveryAddress w) ≠ [] → cartItems w ≠ [] →
  getUser be = Some user → orders_insert be = Accept →
  order_items_insert be = Reject message →
  handlePlaceOrder be w =
    setLoading false
      (toast (mkToast "error saving order items" (Some message) true)
         (setDb (mkDb (meals (db w)) (orders (db w) ++ [order_of be user w])
                      (order_items (db w)))
                (setLoading true w))).
Proof.
  intros Ha Hc Hu Ho Hi. unfold handlePlaceOrder.
  rewrite decide_False by done.
  rewrite decide_False by (by destruct (cartItems w)).
  rewrite Hu. unfold insert_order, insert_order_items. simpl.
  rewrite Ho. simpl. by rewrite Hi.
Qed.

Lemma handlePlaceOrder_accepted be w user :
  trim (deliveryAddress w) ≠ [] → cartItems w ≠ [] →
  getUser be = Some user → orders_insert be = Accept →
  order_items_insert be = Accept →
  handlePlaceOrder be w =
    setLoading false
      (navigate "/dashboard"
         (toast toast_order_placed
            (removeItem
               (setDb (mkDb (meals (db w))
                            (orders (db w) ++ [order_of be user w])
                            (order_items (db w)
                             ++ orderItems (order_of be user w) (cartItems w)))
                      (setLoading true w))))).
Proof.
  intros Ha Hc Hu Ho Hi. unfold handlePlaceOrder.
  rewrite decide_False by done.
  rewrite decide_False by (by destruct (cartItems w)).
  rewrite Hu. unfold insert_order, insert_order_items. simpl.
  rewrite Ho. simpl. by rewrite Hi.
Qed.

Lemma reported_one be w t :
  toasts (handlePlaceOrder be w) = toasts w ++ [t] →
  reported be w = omap settled_of_toast [t].
Proof. intros H. unfold reported. by rewrite H, drop_app_length. Qed.

Lemma lines_of_unreferenced orderId ms os ls :
  (∀ l, l ∈ ls → OrderItem.order_id l ≠ orderId) →
  lines_of orderId (mkDb ms os ls) = [].
Proof.
  unfold lines_of. simpl. induction ls as [|l ls IH]; intros H; [done|].
  rewrite filter_cons_False; [|apply H; left].
  apply IH. intros l' Hl'. apply H. by right.
Qed.

(** ** Validation *)

(** C3.  With a delivery address that is blank after trimming, whatever the
    cart holds, the submission reports the missing address and nothing
    else, writes nothing to storage and leaves the cart store as it was. *)
Theorem blank_address_rejected be w :
  trim (deliveryAddress w) = [] →
  reported be w = [RejectedInput missing_address]
  ∧ db (handlePlaceOrder be w) = db w
  ∧ localStorage (handlePlaceOrder be w) = localStorage w
  ∧ cartItems (handlePlaceOrder be w) = cartItems w.
Proof.
  intros H. rewrite (reported_one be w toast_missing_address)
    by by rewrite handlePlaceOrder_blank.
  by rewrite handlePlaceOrder_blank.
Qed.

(** C2, as the handler behaves.  With no line items, a blank address is the
    only failure reported (the address check returns before the cart is
    looked at); the empty cart is reported when the address is not blank. *)
Theorem validation_reports_first_failure be w :
  cartItems w = [] →
  (trim (deliveryAddress w) = [] →
     reported be w = [RejectedInput missing_address])
  ∧ (trim (deliveryAddress w) ≠ [] →
     reported be w = [RejectedInput empty_cart]).
Proof.
  intros Hc. split; intros Ha.
  - rewrite (reported_one be w toast_missing_address); [done|].
    by rewrite handlePlaceOrder_blank.
  - rewrite (reported_one be w toast_empty_cart); [done|].
    by rewrite handlePlaceOrder_no_items.
Qed.

(** ** Storage failures *)

(** C4.  When storage rejects the order, the submission settles as a
    partial failure carrying the storage message, the tables are as before
    (no order, and no line even when storage would have taken the lines),
    and the cart store and the line items are untouched. *)
Theorem order_rejected_preserves_everything be w user message :
  trim (deliveryAddress w) ≠ [] → cartItems w ≠ [] →
  getUser be = Some user → orders_insert be = Reject message →
  reported be w = [PartialFailure (or_unknown (Some message))]
  ∧ (message ≠ "" → reported be w = [PartialFailure message])
  ∧ db (handlePlaceOrder be w) = db w
  ∧ localStorage (handlePlaceOrder be w) = localStorage w
  ∧ cartItems (handlePlaceOrder be w) = cartItems w.
Proof.
  intros Ha Hc Hu Ho.
  pose proof (handlePlaceOrder_order_rejected be w user message Ha Hc Hu Ho) as E.
  assert (reported be w = [PartialFailure (or_unknown (Some message))]) as R.
  { erewrite reported_one; [|by rewrite E]. done. }
  split_and!; [done| |by rewrite E..].
  intros Hm. rewrite R. simpl. by rewrite decide_False.
Qed.

(** C5.  When storage takes the order and rejects the lines, the cart store
    is as before, the new order stays in the orders table (nothing is
    deleted), no line is stored, and the order has no lines; the key that
    storage gives the order is new, so no earlier line refers to it. *)
Theorem lines_rejected_leaves_orphan_order be w user message :
  trim (deliveryAddress w) ≠ [] → cartItems w ≠ [] →
  getUser be = Some user → orders_insert be = Accept →
  order_items_insert be = Reject message →
  (∀ l, l ∈ order_items (db w) → OrderItem.order_id l ≠ new_order_id be) →
  let w' := handlePlaceOrder be w in
  localStorage w' = localStorage w
  ∧ orders (db w') = orders (db w) ++ [order_of be user w]
  ∧ order_items (db w') = order_items (db w)
  ∧ lines_of (new_order_id be) (db w') = []
  ∧ reported be w = [PartialFailure message].
Proof.
  intros Ha Hc Hu Ho Hi Hfresh w'.
  pose proof (handlePlaceOrder_lines_rejected be w user message Ha Hc Hu Ho Hi) as E.
  unfold w'. split_and!; [by rewrite E..| |].
  - rewrite E. by apply lines_of_unreferenced.
  - erewrite reported_one; [|by rewrite E]. done.
Qed.

(** ** Totals *)

Lemma round64_exact z : Z.abs z ≤ 2 ^ 53 → round64 z = z.
Proof.
  intros H. unfold round64. by destruct (Z.leb_spec (Z.abs z) (2 ^ 53)); [|lia].
Qed.

Lemma Zsum_abs_nonneg (l : list Z) : 0 ≤ Zsum (map Z.abs l).
Proof. induction l as [|x l IH]; simpl; lia. Qed.

Lemma Zsum_Permutation (l l' : list Z) : l ≡ₚ l' → Zsum l = Zsum l'.
Proof.
  induction 1 as [|x l l' _ IH|x y l|l l' l'' _ IH1 _ IH2]; simpl; lia.
Qed.

Lemma exact_sum_Permutation (l l' : list Z) : l ≡ₚ l' → exact_sum l → exact_sum l'.
Proof.
  unfold exact_sum. intros Hp.
  by rewrite (Zsum_Permutation _ _ (Permutation_map Z.abs Hp)).
Qed.

(** Within the exact range a binary64 sum taken left to right is the sum. *)
Lemma fold_left_add64_exact (l : list Z) a :
  Z.abs a + Zsum (map Z.abs l) ≤ 2 ^ 53 →
  fold_left add64 l a = a + Zsum l.
Proof.
  revert a. induction l as [|x l IH]; intros a H; simpl in *; [lia|].
  pose proof (Zsum_abs_nonneg l).
  unfold add64 at 2. rewrite round64_exact by lia.
  rewrite IH by lia. lia.
Qed.

Lemma mul64_amounts f items :
  exact_sum (amounts f items) →
  map (λ i, mul64 (f i) (CartItem.quantity i)) items = amounts f items.
Proof.
  unfold exact_sum, amounts.
  induction items as [|i items IH]; intros H; simpl in *; [done|].
  pose proof (Zsum_abs_nonneg (map (λ i, f i * CartItem.quantity i) items)).
  unfold mul64 at 1. rewrite round64_exact by lia.
  rewrite IH by lia. done.
Qed.

Lemma fold_left_macros items acc :
  fold_left
    (λ acc item,
       Macros.mk
         (add64 (Macros.calories acc)
                (mul64 (CartItem.calories item) (CartItem.quantity item)))
         (add64 (Macros.protein acc)
                (mul64 (CartItem.protein item) (CartItem.quantity item)))
         (add64 (Macros.carbs acc)
                (mul64 (CartItem.carbs item) (CartItem.quantity item)))
         (add64 (Macros.fats acc)
                (mul64 (CartItem.fats item) (CartItem.quantity item))))
    items acc
  = Macros.mk
      (fold_left add64
         (map (λ i, mul64 (CartItem.calories i) (CartItem.quantity i)) items)
         (Macros.calories acc))
      (fold_left add64
         (map (λ i, mul64 (CartItem.protein i) (CartItem.quantity i)) items)
         (Macros.protein acc))
      (fold_left add64
         (map (λ i, mul64 (CartItem.carbs i) (CartItem.quantity i)) items)
         (Macros.carbs acc))
      (fold_left add64
         (map (λ i, mul64 (CartItem.fats i) (CartItem.quantity i)) items)
         (Macros.fats acc)).
Proof.
  revert acc. induction items as [|i items IH]; intros acc; simpl.
  - by destruct acc.
  - by rewrite IH.
Qed.

Lemma totalMacros_sums items :
  macros_exact items →
  totalMacros items
  = Macros.mk (Zsum (amounts CartItem.calories items))
              (Zsum (amounts CartItem.protein items))
              (Zsum (amounts CartItem.carbs items))
              (Zsum (amounts CartItem.fats items)).
Proof.
  intros (Hc & Hp & Hb & Hf). unfold totalMacros. rewrite fold_left_macros.
  rewrite !mul64_amounts by done. simpl.
  unfold exact_sum in *.
  rewrite !fold_left_add64_exact by (simpl; lia). done.
Qed.

Lemma macros_exact_Permutation items items' :
  items ≡ₚ items' → macros_exact items → macros_exact items'.
Proof.
  intros Hp (Hc & Hpr & Hb & Hf). unfold macros_exact, amounts in *.
  split_and!.
  - exact (exact_sum_Permutation _ _ (Permutation_map _ Hp) Hc).
  - exact (exact_sum_Permutation _ _ (Permutation_map _ Hp) Hpr).
  - exact (exact_sum_Permutation _ _ (Permutation_map _ Hp) Hb).
  - exact (exact_sum_Permutation _ _ (Permutation_map _ Hp) Hf).
Qed.

Lemma Zsum_map_Permutation {A} (f : A → Z) l l' :
  l ≡ₚ l' → Zsum (map f l) = Zsum (map f l').
Proof.
  induction 1 as [|x l l' _ IH|x y l|l l' l'' _ IH1 _ IH2]; simpl.
  - done.
  - by rewrite IH.
  - lia.
  - by rewrite IH1.
Qed.

Lemma totalPrice_fold_map items acc :
  fold_left
    (λ sum item,
       (sum + CartItem.price item * number_of_Z (CartItem.quantity item))%float)
    items acc
  = fold_left PrimFloat.add (line_prices items) acc.
Proof. revert acc. induction items as [|i items IH]; intros acc; simpl; [done|apply IH]. Qed.

(** C7 fails for the price total: the same three line items give
    0.6000000000000001 in one order and 0.6 in the other. *)
Lemma totalPrice_depends_on_order :
  items_ascending ≡ₚ items_descending
  ∧ totalPrice items_ascending = 0.6000000000000001%float
  ∧ totalPrice items_descending = 0.6%float
  ∧ totalPrice items_ascending ≠ totalPrice items_descending.
Proof.
  split_and!.
  - unfold items_ascending, items_descending.
    etrans; [apply Permutation_swap|]. etrans; [apply Permutation_skip, Permutation_swap|].
    apply Permutation_swap.
  - reflexivity.
  - reflexivity.
  - vm_compute. discriminate.
Qed.

(** Beyond the exact range the nutritional totals depend on the order
    too: one unit-calorie item with quantity 2^53 and two with quantity 1
    total 2^53 in one order and 2^53 + 2 in the other. *)
Lemma totalMacros_depends_on_order_beyond_exact_range :
  items_large_first ≡ₚ items_large_last
  ∧ Macros.calories (totalMacros items_large_first) = 2 ^ 53
  ∧ Macros.calories (totalMacros items_large_last) = 2 ^ 53 + 2.
Proof.
  split_and!.
  - unfold items_large_first, items_large_last.
    etrans; [apply Permutation_swap|]. apply Permutation_skip, Permutation_swap.
  - vm_compute. reflexivity.
  - vm_compute. reflexivity.
Qed.

(** C7, as the code computes.  The price total is the binary64 sum of the
    line prices taken left to right from 0.  While the amounts of each
    nutrient (per-unit amount times quantity, in absolute value) add up to
    at most 2^53, each nutritional total is the sum of these amounts over
    the line items, and the nutritional totals are the same for every
    permutation of the line items. *)
Theorem totals_are_line_sums items :
  totalPrice items = fold_left PrimFloat.add (line_prices items) 0%float
  ∧ totalPrice [] = 0%float
  ∧ (∀ item,
       totalPrice (items ++ [item]) =
       (totalPrice items
        + CartItem.price item * number_of_Z (CartItem.quantity item))%float)
  ∧ (macros_exact items →
     Macros.calories (totalMacros items)
       = Zsum (map (λ i, CartItem.calories i * CartItem.quantity i) items)
     ∧ Macros.protein (totalMacros items)
       = Zsum (map (λ i, CartItem.protein i * CartItem.quantity i) items)
     ∧ Macros.carbs (totalMacros items)
       = Zsum (map (λ i, CartItem.carbs i * CartItem.quantity i) items)
     ∧ Macros.fats (totalMacros items)
       = Zsum (map (λ i, CartItem.fats i * CartItem.quantity i) items)
     ∧ (∀ items', items ≡ₚ items' → totalMacros items' = totalMacros items)).
Proof.
  split_and!.
  - apply totalPrice_fold_map.
  - done.
  - intros item. unfold totalPrice. by rewrite fold_left_app.
  - intros Hx. split_and!; try (by rewrite totalMacros_sums).
    intros items' Hp.
    rewrite (totalMacros_sums items) by done.
    rewrite (totalMacros_sums items') by by apply (macros_exact_Permutation items).
    unfold amounts.
    f_equal; symmetry; by apply Zsum_map_Permutation.
Qed.

(** ** Materialization *)

Lemma keys_empty_iff (c : gmap string Z) : keys c = [] ↔ c = ∅.
Proof.
  unfold keys. split.
  - intros H. apply map_to_list_empty_iff. by apply fmap_nil_inv in H.
  - intros ->. by rewrite map_to_list_empty.
Qed.

Lemma elem_of_keys (c : gmap string Z) k : k ∈ keys c ↔ is_Some (c !! k).
Proof.
  unfold keys. rewrite list_elem_of_fmap. split.
  - intros [[k' q] [-> H]]. apply elem_of_map_to_list in H. by exists q.
  - intros [q H]. exists (k, q). split; [done|]. by apply elem_of_map_to_list.
Qed.

Lemma materialize_delete c rows k :
  (∀ m, m ∈ rows → Meal.id m ≠ k) →
  materialize (delete k c) rows = materialize c rows.
Proof.
  intros H. unfold materialize. apply map_ext_in. intros m Hm.
  apply list_elem_of_In in Hm. unfold index.
  by rewrite lookup_delete_ne by (symmetry; by apply H).
Qed.

Lemma filter_no_ids (ms : list Meal.t) :
  filter (λ m, Meal.id m ∈ @nil string) ms = [].
Proof.
  induction ms as [|m ms IH]; [done|].
  rewrite filter_cons_False; [done|]. apply not_elem_of_nil.
Qed.

Lemma loadCartItems_accepted be w c :
  localStorage w = Some c → meals_select be = Accept →
  loadCartItems be w =
    setCartItems
      (materialize c (filter (λ m, Meal.id m ∈ keys c) (meals (db w)))) w.
Proof.
  intros Hl Hs. unfold loadCartItems, select_meals_in. rewrite Hl, Hs.
  case_bool_decide as Hk; [|done].
  apply length_zero_iff_nil in Hk. by rewrite Hk, filter_no_ids.
Qed.

(** Every line item of a loaded cart carries the quantity stored for its
    meal: the fetched rows all have a key of the cart. *)
Lemma loadCartItems_quantities be w c i :
  localStorage w = Some c → meals_select be = Accept →
  i ∈ cartItems (loadCartItems be w) →
  c !! CartItem.id i = Some (CartItem.quantity i).
Proof.
  intros Hl Hs. rewrite (loadCartItems_accepted be w c Hl Hs). simpl.
  unfold materialize. intros Hi.
  apply list_elem_of_fmap in Hi as [m [-> Hm]].
  apply list_elem_of_filter in Hm as [Hk _].
  apply elem_of_keys in Hk as [q Hq].
  unfold CartItem.id, index. simpl. by rewrite Hq.
Qed.

(** C8.  A cart entry whose meal is not among the fetched rows gives no
    line item, and line items and all totals are what they would be without
    the entry; the load shows no toast for it. *)
Theorem unmatched_entry_is_dropped (c : gmap string Z) (rows : list Meal.t) k :
  (∀ m, m ∈ rows → Meal.id m ≠ k) →
  (∀ i, i ∈ materialize c rows → CartItem.id i ≠ k)
  ∧ materialize c rows = materialize (delete k c) rows
  ∧ totalPrice (materialize c rows) = totalPrice (materialize (delete k c) rows)
  ∧ totalMacros (materialize c rows) = totalMacros (materialize (delete k c) rows)
  ∧ (∀ be w,
       localStorage w = Some c → meals_select be = Accept →
       rows = filter (λ m, Meal.id m ∈ keys c) (meals (db w)) →
       cartItems (loadCartItems be w) = materialize c rows
       ∧ toasts (loadCartItems be w) = toasts w).
Proof.
  intros H. rewrite (materialize_delete c rows k H). split_and!; try done.
  - intros i Hi. unfold materialize in Hi.
    apply list_elem_of_fmap in Hi as [m [-> Hm]]. by apply H.
  - intros be w Hl Hs ->. by rewrite (loadCartItems_accepted be w c).
Qed.

(** ** Successful submission *)

Lemma orderItems_materialize order c rows :
  orderItems order (materialize c rows)
  = map (λ m, OrderItem.mk (Order.id order) (Meal.id m)
                           (index c (Meal.id m)) (Meal.price m)) rows.
Proof. unfold orderItems, materialize. rewrite map_map. done. Qed.

(** C6.  Load the cart against the catalog of [w0]; let the catalog then
    become any [catalog'] and the address be typed.  An accepted submission
    stores, for each fetched meal, one line with the price that meal had
    when the cart was loaded: the catalog at submission time plays no part.
    In general the stored lines are those of [cartItems], each with the
    price held in its line item. *)
Theorem price_at_purchase_is_loaded_price
    be_load be w0 (c : gmap string Z) catalog' addr user :
  localStorage w0 = Some c → meals_select be_load = Accept →
  filter (λ m, Meal.id m ∈ keys c) (meals (db w0)) ≠ [] →
  trim addr ≠ [] → getUser be = Some user →
  orders_insert be = Accept → order_items_insert be = Accept →
  let w1 := loadCartItems be_load w0 in
  let w2 := setDeliveryAddress addr
              (setDb (mkDb catalog' (orders (db w1)) (order_items (db w1))) w1) in
  order_items (db (handlePlaceOrder be w2))
  = order_items (db w0)
    ++ map (λ m, OrderItem.mk (new_order_id be) (Meal.id m)
                              (index c (Meal.id m)) (Meal.price m))
           (filter (λ m, Meal.id m ∈ keys c) (meals (db w0)))
  ∧ order_items (db (handlePlaceOrder be w2))
    = order_items (db w2)
      ++ map (λ item, OrderItem.mk (new_order_id be) (CartItem.id item)
                                   (CartItem.quantity item) (CartItem.price item))
             (cartItems w2).
Proof.
  intros Hl Hs Hne Ha Hu Ho Hi w1 w2.
  assert (cartItems w2 =
          materialize c (filter (λ m, Meal.id m ∈ keys c) (meals (db w0)))) as Hc.
  { unfold w2, w1. by rewrite (loadCartItems_accepted be_load w0 c). }
  assert (order_items (db w2) = order_items (db w0)) as Hd.
  { unfold w2, w1. simpl. by rewrite loadCartItems_db. }
  assert (cartItems w2 ≠ []) as Hne2.
  { rewrite Hc. unfold materialize. by destruct (filter _ _). }
  pose proof (handlePlaceOrder_accepted be w2 user Ha Hne2 Hu Ho Hi) as E.
  assert (order_items (db (handlePlaceOrder be w2))
          = order_items (db w2)
            ++ orderItems (order_of be user w2) (cartItems w2)) as ->
    by (by rewrite E).
  split; [|done].
  by rewrite Hd, Hc, orderItems_materialize.
Qed.

Lemma filter_primary_key (ms : list Meal.t) m :
  m ∈ ms → NoDup (Meal.id <$> ms) →
  filter (λ x, Meal.id x ∈ [Meal.id m]) ms = [m].
Proof.
  induction ms as [|x ms IH]; intros Hm Hnd; [by apply elem_of_nil in Hm|].
  rewrite fmap_cons in Hnd. apply NoDup_cons in Hnd as [Hx Hnd].
  apply elem_of_cons in Hm as [->|Hm].
  - rewrite filter_cons_True by apply list_elem_of_singleton, eq_refl.
    f_equal. clear IH Hnd. induction ms as [|y ms IH]; [done|].
    rewrite filter_cons_False.
    + apply IH. intros H. apply Hx. rewrite fmap_cons. by right.
    + intros Hy. apply list_elem_of_singleton in Hy. apply Hx.
      rewrite fmap_cons, Hy. left.
  - rewrite filter_cons_False; [by apply IH|].
    intros Hy. apply list_elem_of_singleton in Hy. apply Hx. rewrite Hy.
    apply list_elem_of_fmap. by exists m.
Qed.

(** C1.  With the store holding [{A: 2}], meal A in the catalog (ids being
    a key of the table), the cart loaded, a non-blank address, a signed-in
    user and both writes accepted, the submission adds exactly one order,
    of total 37.8 and pending in both statuses, and exactly one line, for
    meal A with quantity 2 at 18.9 under the new order's id; it removes the
    stored cart and reports success. *)
Theorem one_item_checkout be_load be w name addr user :
  localStorage w = Some {["A" := 2]} →
  meal_A name ∈ meals (db w) → NoDup (Meal.id <$> meals (db w)) →
  meals_select be_load = Accept →
  trim addr ≠ [] → getUser be = Some user →
  orders_insert be = Accept → order_items_insert be = Accept →
  let w1 := setDeliveryAddress addr (loadCartItems be_load w) in
  let w2 := handlePlaceOrder be w1 in
  orders (db w2) =
    orders (db w)
    ++ [Order.mk (new_order_id be) user 37.8%float addr "pending" "pending"]
  ∧ order_items (db w2) =
    order_items (db w) ++ [OrderItem.mk (new_order_id be) "A" 2 18.9%float]
  ∧ localStorage w2 = None
  ∧ stored w2 = ∅
  ∧ reported be w1 = [Success].
Proof.
  intros Hl Hm Hnd Hs Ha Hu Ho Hi w1 w2.
  assert (cartItems w1 = [CartItem.mk (meal_A name) 2]) as Hc.
  { unfold w1. simpl. rewrite (loadCartItems_accepted be_load w _ Hl Hs). simpl.
    unfold keys. rewrite map_to_list_singleton. simpl.
    pose proof (filter_primary_key _ (meal_A name) Hm Hnd) as F.
    change (Meal.id (meal_A name)) with "A" in F. by rewrite F. }
  assert (db w1 = db w) as Hd.
  { unfold w1. simpl. apply loadCartItems_db. }
  pose proof (handlePlaceOrder_accepted be w1 user) as E.
  rewrite Hc, Hd in E. specialize (E Ha ltac:(done) Hu Ho Hi).
  assert (order_of be user w1
          = Order.mk (new_order_id be) user 37.8%float addr "pending" "pending") as Hord.
  { unfold order_of. rewrite Hc. done. }
  rewrite Hord in E.
  assert (order_items (db w2) =
          order_items (db w) ++ [OrderItem.mk (new_order_id be) "A" 2 18.9%float]) as Hitems.
  { unfold w2. by rewrite E. }
  split_and!.
  - unfold w2. by rewrite E.
  - done.
  - unfold w2. by rewrite E.
  - unfold w2, stored. by rewrite E.
  - erewrite reported_one; [|fold w2; unfold w2; by rewrite E]. done.
Qed.

(** ** The properties at concrete inputs *)

Lemma one_item_checkout_example :
  let w2 := handlePlaceOrder backend_accepting world_ready in
  orders (db w2) =
    [Order.mk "o1" "u1" 37.8%float address_example "pending" "pending"]
  ∧ order_items (db w2) = [OrderItem.mk "o1" "A" 2 18.9%float]
  ∧ localStorage w2 = None
  ∧ stored w2 = ∅
  ∧ reported backend_accepting world_ready = [Success].
Proof.
  apply (one_item_checkout backend_accepting backend_accepting world_example
           "chicken bowl" address_example "u1").
  - reflexivity.
  - left.
  - apply NoDup_singleton.
  - reflexivity.
  - vm_compute. discriminate.
  - reflexivity.
  - reflexivity.
  - reflexivity.
Defined.

(** C2 as stated fails: with a blank address and no line items the handler
    reports the missing address only. *)
Lemma empty_cart_unreported_with_blank_address :
  trim (deliveryAddress world_blank_empty) = []
  ∧ cartItems world_blank_empty = []
  ∧ reported backend_accepting world_blank_empty = [RejectedInput missing_address]
  ∧ RejectedInput empty_cart ∉ reported backend_accepting world_blank_empty.
Proof.
  assert (reported backend_accepting world_blank_empty
          = [RejectedInput missing_address]) as R by reflexivity.
  split_and!; [reflexivity..|exact R|].
  rewrite R. intros H. apply list_elem_of_singleton in H. discriminate.
Qed.

Lemma validation_reports_first_failure_example :
  reported backend_accepting world_blank_empty = [RejectedInput missing_address].
Proof.
  apply (validation_reports_first_failure backend_accepting world_blank_empty);
    reflexivity.
Defined.

Lemma blank_address_rejected_example :
  reported backend_accepting (setDeliveryAddress [0x20; 0xA]%N world_ready)
    = [RejectedInput missing_address]
  ∧ db (handlePlaceOrder backend_accepting
          (setDeliveryAddress [0x20; 0xA]%N world_ready)) = db_example
  ∧ localStorage (handlePlaceOrder backend_accepting
                    (setDeliveryAddress [0x20; 0xA]%N world_ready))
    = Some {["A" := 2]}
  ∧ cartItems (handlePlaceOrder backend_accepting
                 (setDeliveryAddress [0x20; 0xA]%N world_ready))
    = [CartItem.mk (meal_A "chicken bowl") 2].
Proof.
  apply (blank_address_rejected backend_accepting
           (setDeliveryAddress [0x20; 0xA]%N world_ready)).
  reflexivity.
Defined.

Lemma order_rejected_example :
  reported backend_rejecting_order world_ready
    = [PartialFailure "permission denied"]
  ∧ db (handlePlaceOrder backend_rejecting_order world_ready) = db_example
  ∧ localStorage (handlePlaceOrder backend_rejecting_order world_ready)
    = Some {["A" := 2]}.
Proof.
  destruct (order_rejected_preserves_everything backend_rejecting_order
              world_ready "u1" "permission denied") as (_ & R & D & L & _).
  - vm_compute. discriminate.
  - vm_compute. discriminate.
  - reflexivity.
  - reflexivity.
  - split_and!; [apply R; discriminate|exact D|exact L].
Defined.

Lemma lines_rejected_example :
  let w' := handlePlaceOrder backend_rejecting_lines world_ready in
  localStorage w' = Some {["A" := 2]}
  ∧ orders (db w') =
    [Order.mk "o1" "u1" 37.8%float address_example "pending" "pending"]
  ∧ order_items (db w') = []
  ∧ lines_of "o1" (db w') = []
  ∧ reported backend_rejecting_lines world_ready
    = [PartialFailure "permission denied"].
Proof.
  apply (lines_rejected_leaves_orphan_order backend_rejecting_lines world_ready
           "u1" "permission denied").
  - vm_compute. discriminate.
  - vm_compute. discriminate.
  - reflexivity.
  - reflexivity.
  - reflexivity.
  - intros l Hl. vm_compute in Hl. by apply elem_of_nil in Hl.
Defined.

Lemma price_at_purchase_example :
  order_items
    (db (handlePlaceOrder backend_accepting
           (setDeliveryAddress address_example
              (setDb (mkDb catalog_repriced [] [])
                     (loadCartItems backend_accepting world_example)))))
  = [OrderItem.mk "o1" "A" 2 18.9%float].
Proof.
  destruct (price_at_purchase_is_loaded_price backend_accepting backend_accepting
              world_example {["A" := 2]} catalog_repriced address_example "u1")
    as [E _].
  - reflexivity.
  - reflexivity.
  - vm_compute. discriminate.
  - vm_compute. discriminate.
  - reflexivity.
  - reflexivity.
  - reflexivity.
  - exact E.
Defined.

Lemma totals_example :
  totalMacros items_two_meals = Macros.mk 1480 132 135 44
  ∧ totalMacros items_two_meals_swapped = totalMacros items_two_meals.
Proof.
  destruct (totals_are_line_sums items_two_meals) as (_ & _ & _ & H).
  destruct H as (Hc & Hp & Hb & Hf & P).
  - unfold macros_exact, exact_sum. by vm_compute.
  - split.
    + destruct (totalMacros items_two_meals). simpl in *. by subst.
    + apply P. apply Permutation_swap.
Defined.

Lemma unmatched_entry_example :
  materialize {["A" := 2; "gone" := 3]} [meal_A "chicken bowl"]
  = materialize (delete "gone" {["A" := 2; "gone" := 3]}) [meal_A "chicken bowl"].
Proof.
  destruct (unmatched_entry_is_dropped {["A" := 2; "gone" := 3]}
              [meal_A "chicken bowl"] "gone") as (_ & E & _).
  - intros m Hm. apply list_elem_of_singleton in Hm. rewrite Hm. discriminate.
  - exact E.
Defined.

Lemma updateQuantity_zero_example :
  updateQuantity backend_accepting "A" 0 world_example
    = removeFromCart backend_accepting "A" world_example
  ∧ stored (updateQuantity backend_accepting "A" 0 world_example)
    = delete "A" (stored world_example)
  ∧ stored (updateQuantity backend_accepting "A" 0 world_example) !! "A" = None.
Proof.
  apply (updateQuantity_nonpositive_removes backend_accepting "A" 0 world_example).
  lia.
Defined.

Lemma cart_mutation_example :
  let wm := foldl (λ w a, addToCart a w) (mountMeals world_example) ["B"] in
  stored (addToCart "B" wm) !! "A" = stored wm !! "A"
  ∧ stored (updateQuantity backend_accepting "B" 5 world_example) !! "A"
    = stored world_example !! "A"
  ∧ stored (removeFromCart backend_accepting "B" world_example) !! "A"
    = stored world_example !! "A".
Proof.
  apply (cart_mutation_keeps_other_entries backend_accepting "B" "A" 5 ["B"]
           world_example).
  discriminate.
Defined.

Example addToCart_twice :
  stored (addToCart "B" (addToCart "B" (mountMeals world_example)))
  = {["A" := 2; "B" := 2]}.
Proof. vm_compute. reflexivity. Qed.

Example updateQuantity_sets :
  stored (updateQuantity backend_accepting "A" 3 world_example) = {["A" := 3]}.
Proof. vm_compute. reflexivity. Qed.

(** * Further properties of the two pages *)

(** ** [trim] and the address check *)

Lemma trimStart_nil_iff s : trimStart s = [] ↔ blank s.
Proof.
  unfold blank. induction s as [|c s IH]; simpl.
  - split; [constructor|done].
  - destruct (isTrimmed c) eqn:E.
    + rewrite IH. split; [by constructor|]. by inversion 1.
    + split; [done|]. inversion 1; congruence.
Qed.

Lemma blank_trimStart s : blank (trimStart s) ↔ blank s.
Proof.
  split.
  - unfold blank. induction s as [|c s IH]; simpl; [done|].
    destruct (isTrimmed c) eqn:E; [|done].
    intros H. constructor; [done|by apply IH].
  - intros H. apply trimStart_nil_iff in H. rewrite H. constructor.
Qed.

Lemma blank_rev s : blank (rev s) ↔ blank s.
Proof.
  unfold blank. split; intros H.
  - rewrite <- (rev_involutive s). by apply Forall_rev.
  - by apply Forall_rev.
Qed.

Lemma trim_nil_iff s : trim s = [] ↔ blank s.
Proof.
  unfold trim, trimEnd.
  rewrite <- blank_trimStart, <- blank_rev, <- trimStart_nil_iff.
  split; intros H.
  - apply (f_equal (@rev N)) in H. by rewrite rev_involutive in H.
  - by rewrite H.
Qed.

(** ** All the ways a submission can go *)

Lemma handlePlaceOrder_signed_out be w :
  trim (deliveryAddress w) ≠ [] → cartItems w ≠ [] → getUser be = None →
  handlePlaceOrder be w = navigate "/auth" (setLoading true w).
Proof.
  intros Ha Hc Hu. unfold handlePlaceOrder.
  rewrite decide_False by done.
  rewrite decide_False by (by destruct (cartItems w)).
  by rewrite Hu.
Qed.

Lemma branch_exists be w : ∃ b, branch_taken be w b.
Proof.
  destruct (decide (trim (deliveryAddress w) = [])) as [Ha|Ha];
    [by exists blank_address|].
  destruct (decide (cartItems w = [])) as [Hc|Hc]; [by exists no_items|].
  destruct (getUser be) as [user|] eqn:Hu; [|by exists signed_out].
  destruct (orders_insert be) as [|m] eqn:Ho;
    [|by exists (order_rejected user m)].
  destruct (order_items_insert be) as [|m] eqn:Hi;
    [by exists (accepted user)|by exists (lines_rejected user m)].
Qed.

Lemma branch_result be w b :
  branch_taken be w b →
  handlePlaceOrder be w =
    match b with
    | blank_address => toast toast_missing_address w
    | no_items => toast toast_empty_cart w
    | signed_out => navigate "/auth" (setLoading true w)
    | order_rejected user message =>
        setLoading false
          (toast (mkToast "error placing order"
                          (Some (or_unknown (Some message))) true)
                 (setDb (db w) (setLoading true w)))
    | lines_rejected user message =>
        setLoading false
          (toast (mkToast "error saving order items" (Some message) true)
             (setDb (mkDb (meals (db w))
                          (orders (db w) ++ [order_of be user w])
                          (order_items (db w)))
                    (setLoading true w)))
    | accepted user =>
        setLoading false
          (navigate "/dashboard"
             (toast toast_order_placed
                (removeItem
                   (setDb (mkDb (meals (db w))
                                (orders (db w) ++ [order_of be user w])
                                (order_items (db w)
                                 ++ orderItems (order_of be user w) (cartItems w)))
                          (setLoading true w)))))
    end.
Proof.
  destruct b; simpl.
  - apply handlePlaceOrder_blank.
  - intros [? ?]. by apply handlePlaceOrder_no_items.
  - intros (? & ? & ?). by apply handlePlaceOrder_signed_out.
  - intros (? & ? & ? & ?). by apply (handlePlaceOrder_order_rejected be w user).
  - intros (? & ? & ? & ? & ?). by apply handlePlaceOrder_lines_rejected.
  - intros (? & ? & ? & ? & ?). by apply handlePlaceOrder_accepted.
Qed.

Lemma branch_reported be w b :
  branch_taken be w b →
  reported be w =
    match b with
    | blank_address => [RejectedInput missing_address]
    | no_items => [RejectedInput empty_cart]
    | signed_out => []
    | order_rejected _ message => [PartialFailure (or_unknown (Some message))]
    | lines_rejected _ message => [PartialFailure message]
    | accepted _ => [Success]
    end.
Proof.
  intros Hb. unfold reported. rewrite (branch_result be w b Hb).
  destruct b; simpl; rewrite ?drop_app_length, ?drop_all; done.
Qed.

(** X1.  Whatever a submission meets, it leaves the line items, the typed
    address and every stored row where they were: the tables afterwards are
    the tables before, or those with the one new order appended, or those
    with the new order and its lines appended. *)
Theorem submission_only_appends be w :
  cartItems (handlePlaceOrder be w) = cartItems w
  ∧ deliveryAddress (handlePlaceOrder be w) = deliveryAddress w
  ∧ (db (handlePlaceOrder be w) = db w
     ∨ (∃ user,
          db (handlePlaceOrder be w) =
          mkDb (meals (db w)) (orders (db w) ++ [order_of be user w])
               (order_items (db w)))
     ∨ (∃ user,
          db (handlePlaceOrder be w) =
          mkDb (meals (db w)) (orders (db w) ++ [order_of be user w])
               (order_items (db w)
                ++ orderItems (order_of be user w) (cartItems w)))).
Proof.
  destruct (branch_exists be w) as [b Hb].
  rewrite (branch_result be w b Hb).
  destruct b; simpl; split_and!; try done; eauto.
Qed.

(** X2.  A submission reports success exactly when the address is not
    blank, there are line items, a user is signed in and storage accepts
    both writes; the stored cart is removed in that case and is left as it
    was in every other. *)
Theorem success_exactly_when_all_accepted be w :
  (reported be w = [Success] ↔
     trim (deliveryAddress w) ≠ [] ∧ cartItems w ≠ []
     ∧ is_Some (getUser be)
     ∧ orders_insert be = Accept ∧ order_items_insert be = Accept)
  ∧ (reported be w = [Success] ∧ localStorage (handlePlaceOrder be w) = None
     ∨ reported be w ≠ [Success]
       ∧ localStorage (handlePlaceOrder be w) = localStorage w).
Proof.
  split; [split|].
  - intros R. destruct (branch_exists be w) as [b Hb].
    rewrite (branch_reported be w b Hb) in R.
    destruct b; try discriminate R.
    destruct Hb as (? & ? & Hu & ? & ?). rewrite Hu. by eauto.
  - intros (Ha & Hc & [user Hu] & Ho & Hi).
    by rewrite (branch_reported be w (accepted user)).
  - destruct (branch_exists be w) as [b Hb].
    rewrite (branch_reported be w b Hb), (branch_result be w b Hb).
    destruct b; simpl; try (right; split; [discriminate|done]).
    by left.
Qed.

(** X3.  The missing-address rejection is reported exactly for an address
    made only of white space and line terminators (the empty address
    included). *)
Theorem missing_address_iff_blank be w :
  reported be w = [RejectedInput missing_address] ↔ blank (deliveryAddress w).
Proof.
  rewrite <- trim_nil_iff. split.
  - intros R. destruct (branch_exists be w) as [b Hb].
    rewrite (branch_reported be w b Hb) in R.
    by destruct b; try discriminate R.
  - intros Ha. by rewrite (branch_reported be w blank_address).
Qed.

(** X4.  With no signed-in user a valid submission goes to ["/auth"] and
    nothing else: no row is written, the stored cart stays, no toast is
    shown, and [loading] is left set, which keeps the place-order button
    disabled. *)
Theorem signed_out_redirects be w :
  trim (deliveryAddress w) ≠ [] → cartItems w ≠ [] → getUser be = None →
  db (handlePlaceOrder be w) = db w
  ∧ localStorage (handlePlaceOrder be w) = localStorage w
  ∧ toasts (handlePlaceOrder be w) = toasts w
  ∧ reported be w = []
  ∧ navigated (handlePlaceOrder be w) = navigated w ++ ["/auth"]
  ∧ loading (handlePlaceOrder be w) = true
  ∧ placeOrderDisabled (handlePlaceOrder be w) = true.
Proof.
  intros Ha Hc Hu.
  assert (branch_taken be w signed_out) as Hb by done.
  rewrite (branch_reported be w _ Hb), (branch_result be w _ Hb). done.
Qed.

(** X5.  After the lines of an order were rejected, submitting again (the
    page keeps its line items and address) stores a second order for the
    same user, total and address next to the first, and the lines go under
    the second one only. *)
Theorem retry_after_rejected_lines_duplicates_order be1 be2 w user message :
  trim (deliveryAddress w) ≠ [] → cartItems w ≠ [] →
  getUser be1 = Some user → orders_insert be1 = Accept →
  order_items_insert be1 = Reject message →
  getUser be2 = Some user → orders_insert be2 = Accept →
  order_items_insert be2 = Accept →
  let w' := handlePlaceOrder be2 (handlePlaceOrder be1 w) in
  orders (db w') =
    orders (db w)
    ++ [Order.mk (new_order_id be1) user (totalPrice (cartItems w))
                 (deliveryAddress w) "pending" "pending";
        Order.mk (new_order_id be2) user (totalPrice (cartItems w))
                 (deliveryAddress w) "pending" "pending"]
  ∧ order_items (db w') =
    order_items (db w)
    ++ map (λ item, OrderItem.mk (new_order_id be2) (CartItem.id item)
                                 (CartItem.quantity item) (CartItem.price item))
           (cartItems w)
  ∧ localStorage w' = None.
Proof.
  intros Ha Hc Hu1 Ho1 Hi1 Hu2 Ho2 Hi2 w'. unfold w'.
  rewrite (handlePlaceOrder_lines_rejected be1 w user message) by done.
  rewrite (handlePlaceOrder_accepted be2 _ user) by done.
  simpl. by rewrite <- app_assoc.
Qed.

(** X6.  After a successful submission a fresh mount of the Checkout page
    has no line items, whatever the storage service would answer, its
    place-order button is disabled, and a submission with any non-blank
    address is rejected for the empty cart and writes nothing. *)
Theorem remount_after_success_is_empty be be' be'' w user a :
  trim (deliveryAddress w) ≠ [] → cartItems w ≠ [] →
  getUser be = Some user → orders_insert be = Accept →
  order_items_insert be = Accept → trim a ≠ [] →
  let w1 := mountCheckout be' (handlePlaceOrder be w) in
  let w2 := setDeliveryAddress a w1 in
  cartItems w1 = []
  ∧ toasts w1 = toasts (handlePlaceOrder be w)
  ∧ placeOrderDisabled w1 = true
  ∧ reported be'' w2 = [RejectedInput empty_cart]
  ∧ db (handlePlaceOrder be'' w2) = db (handlePlaceOrder be w).
Proof.
  intros Ha Hc Hu Ho Hi Ha' w1 w2.
  assert (w1 = mkWorld None (db (handlePlaceOrder be w))
                       (toasts (handlePlaceOrder be w))
                       (navigated (handlePlaceOrder be w))
                       (cart (handlePlaceOrder be w)) [] false []) as E.
  { unfold w1, mountCheckout, loadCartItems. simpl.
    by rewrite (handlePlaceOrder_accepted be w user). }
  assert (branch_taken be'' w2 no_items) as Hb.
  { unfold w2. rewrite E. done. }
  rewrite (branch_reported be'' w2 _ Hb), (branch_result be'' w2 _ Hb).
  unfold w2. rewrite E. done.
Qed.


(** X8.  While the place-order button is enabled a submission never
    reports an empty cart, and afterwards the button is disabled in one
    case only: the address was not blank and nobody was signed in. *)
Theorem enabled_button_outcomes be w :
  placeOrderDisabled w = false →
  reported be w ≠ [RejectedInput empty_cart]
  ∧ (placeOrderDisabled (handlePlaceOrder be w) = true
     ↔ trim (deliveryAddress w) ≠ [] ∧ getUser be = None).
Proof.
  unfold placeOrderDisabled. intros H.
  apply orb_false_iff in H as [Hl Hc].
  apply bool_decide_eq_false in Hc.
  assert (cartItems w ≠ []) as Hne by (by destruct (cartItems w)).
  split.
  - intros R. destruct (branch_exists be w) as [b Hb].
    rewrite (branch_reported be w b Hb) in R.
    destruct b; try discriminate R. by destruct Hb.
  - destruct (branch_exists be w) as [b Hb].
    rewrite (branch_result be w b Hb).
    destruct b; simpl in *;
      rewrite ?Hl, ?(bool_decide_eq_false_2 _ Hc); simpl;
      intuition (try congruence; try discriminate).
Qed.

(** ** The cart store under sequences of operations *)

Lemma or_zero_default x : or_zero x = default 0 x.
Proof. destruct x as [q|]; simpl; [|done]. destruct (Z.eqb_spec q 0); lia. Qed.

Lemma addToCart_db k w : db (addToCart k w) = db w.
Proof. done. Qed.


Lemma adds_same_key k n w :
  cart (foldl (λ w a, addToCart a w) w (replicate (S n) k))
  = <[k := default 0 (cart w !! k) + Z.of_nat (S n)]> (cart w).
Proof.
  revert w. induction n as [|n IH]; intros w.
  - simpl. by rewrite or_zero_default.
  - remember (S n) as m eqn:Em. simpl. subst m. rewrite IH. simpl cart.
    rewrite lookup_insert_eq, insert_insert_eq, or_zero_default. simpl.
    f_equal. lia.
Qed.

Lemma positive_insert (c : gmap string Z) k q :
  1 ≤ q → positive_quantities c → positive_quantities (<[k := q]> c).
Proof.
  intros Hq Hc k' q' H. destruct (decide (k = k')) as [->|Hne].
  - rewrite lookup_insert_eq in H. by inversion H; subst.
  - rewrite lookup_insert_ne in H by done. by apply (Hc k').
Qed.

Lemma positive_delete (c : gmap string Z) k :
  positive_quantities c → positive_quantities (delete k c).
Proof.
  intros Hc k' q' H. apply lookup_delete_Some in H as [_ H]. by apply (Hc k').
Qed.

(** X9.  No cart operation stores a quantity below 1: if every quantity
    held by the Meals page and by the store is at least 1, it is so in the
    store after adding a meal, after setting any quantity (zero and negative
    ones included) and after removing an entry. *)
Theorem stored_quantities_stay_positive be k q w :
  positive_quantities (cart w) → positive_quantities (stored w) →
  positive_quantities (stored (addToCart k w))
  ∧ positive_quantities (stored (updateQuantity be k q w))
  ∧ positive_quantities (stored (removeFromCart be k w)).
Proof.
  intros Hc Hs. split_and!.
  - rewrite addToCart_stored, or_zero_default. apply positive_insert; [|done].
    destruct (cart w !! k) as [q'|] eqn:E; simpl; [|lia].
    specialize (Hc k q' E). lia.
  - destruct (Z.le_gt_cases 1 q) as [Hq|Hq].
    + rewrite updateQuantity_stored by done. unfold stored in Hs.
      destruct (localStorage w) as [c|]; [|done]. by apply positive_insert.
    + rewrite updateQuantity_below_one by lia.
      rewrite removeFromCart_stored. by apply positive_delete.
  - rewrite removeFromCart_stored. by apply positive_delete.
Qed.

(** X10.  On the stored mapping, removing an entry twice is removing it
    once, removals of two entries commute, and of two settings of the same
    entry the later one (a quantity of at least 1) wins, whatever the earlier
    quantity was. *)
Theorem cart_operations_compose be1 be2 k k' q1 q2 w :
  1 ≤ q2 →
  stored (removeFromCart be2 k (removeFromCart be1 k w))
    = stored (removeFromCart be1 k w)
  ∧ stored (removeFromCart be2 k' (removeFromCart be1 k w))
    = stored (removeFromCart be2 k (removeFromCart be1 k' w))
  ∧ stored (updateQuantity be2 k q2 (updateQuantity be1 k q1 w))
    = stored (updateQuantity be2 k q2 w).
Proof.
  intros Hq. split_and!.
  - rewrite !removeFromCart_stored. apply delete_delete_eq.
  - rewrite !removeFromCart_stored. apply delete_delete.
  - rewrite !(updateQuantity_stored _ k q2) by done.
    destruct (Z.le_gt_cases 1 q1) as [Hq1|Hq1].
    + unfold updateQuantity. destruct (Z.ltb_spec q1 1); [lia|].
      destruct (localStorage w) as [c|] eqn:E; [|by rewrite E].
      rewrite loadCartItems_localStorage. simpl. apply insert_insert_eq.
    + rewrite updateQuantity_below_one by lia. unfold removeFromCart.
      destruct (localStorage w) as [c|] eqn:E; [|by rewrite E].
      rewrite loadCartItems_localStorage. simpl. apply insert_delete_eq.
Qed.

(** At a quantity of 2^53 the plus button stores 2^53 again. *)
Lemma clickPlus_rounds_at_2_53 be item (c : gmap string Z) w :
  localStorage w = Some c → CartItem.quantity item = 2 ^ 53 →
  stored (clickPlus be item w) = <[CartItem.id item := 2 ^ 53]> c.
Proof.
  intros Hl Hq. unfold clickPlus. rewrite Hq.
  change (add64 (2 ^ 53) 1) with (2 ^ 53).
  rewrite updateQuantity_stored by done. by rewrite Hl.
Qed.

(** X11.  On a line item that shows the stored quantity q, with
    1 <= q < 2^53: the plus button stores q + 1; pressing minus on the
    refreshed item brings the store back to what it was; and the minus
    button on a quantity of 1 does what the trash button does. *)
Theorem plus_then_minus_restores be be' item item' (c : gmap string Z) w :
  localStorage w = Some c →
  c !! CartItem.id item = Some (CartItem.quantity item) →
  1 ≤ CartItem.quantity item →
  CartItem.quantity item + 1 ≤ 2 ^ 53 →
  CartItem.id item' = CartItem.id item →
  CartItem.quantity item' = CartItem.quantity item + 1 →
  stored (clickPlus be item w)
    = <[CartItem.id item := CartItem.quantity item + 1]> c
  ∧ stored (clickMinus be' item' (clickPlus be item w)) = c
  ∧ (CartItem.quantity item = 1 →
     clickMinus be item w = clickTrash be item w
     ∧ stored (clickMinus be item w) !! CartItem.id item = None).
Proof.
  intros Hl Hq H1 Hmax Hid' Hq'.
  assert (add64 (CartItem.quantity item) 1 = CartItem.quantity item + 1) as Hplus.
  { unfold add64. apply round64_exact. lia. }
  assert (add64 (CartItem.quantity item') (-1) = CartItem.quantity item) as Hminus.
  { unfold add64. rewrite Hq'. rewrite round64_exact by lia. lia. }
  assert (stored (clickPlus be item w)
          = <[CartItem.id item := CartItem.quantity item + 1]> c) as Hp.
  { unfold clickPlus. rewrite Hplus.
    rewrite updateQuantity_stored by lia. by rewrite Hl. }
  split_and!; [done| |].
  - unfold clickMinus. rewrite Hid', Hminus.
    rewrite updateQuantity_stored by lia.
    unfold clickPlus, updateQuantity. rewrite Hplus.
    destruct (Z.ltb_spec (CartItem.quantity item + 1) 1); [lia|].
    rewrite Hl, loadCartItems_localStorage. simpl.
    rewrite insert_insert_eq. by apply insert_id.
  - intros E. unfold clickMinus, clickTrash. rewrite E.
    change (add64 1 (-1)) with 0.
    rewrite updateQuantity_below_one by lia. split; [done|].
    rewrite removeFromCart_stored. apply lookup_delete_eq.
Qed.

(** ** The cart button of the Meals page *)

Lemma Zsum_values_insert_fresh (f : Z → Z) (m : gmap string Z) k v :
  m !! k = None →
  Zsum (map f (map_to_list (<[k := v]> m)).*2)
  = f v + Zsum (map f (map_to_list m).*2).
Proof.
  intros H.
  rewrite (Zsum_Permutation _ (map f ((k, v) :: map_to_list m).*2)); [done|].
  apply Permutation_map, fmap_Permutation. by apply map_to_list_insert.
Qed.

Lemma Zsum_values_insert (f : Z → Z) (m : gmap string Z) k v :
  Zsum (map f (map_to_list (<[k := v]> m)).*2)
  = f v + Zsum (map f (map_to_list m).*2) - default 0 (f <$> m !! k).
Proof.
  destruct (m !! k) as [q|] eqn:E; simpl.
  - rewrite <- (insert_delete_eq m).
    rewrite <- (insert_delete_id m k q E) at 2.
    rewrite !Zsum_values_insert_fresh by apply lookup_delete_eq. lia.
  - rewrite Zsum_values_insert_fresh by done. lia.
Qed.

Lemma cartItemCount_exact w :
  exact_sum (quantities w) → cartItemCount w = Zsum (quantities w).
Proof.
  unfold exact_sum, cartItemCount, quantities. intros H.
  change (λ sum qty : Z, add64 sum qty) with add64.
  rewrite fold_left_add64_exact by (simpl; lia). lia.
Qed.

Lemma quantities_add k w :
  Zsum (quantities (addToCart k w)) = Zsum (quantities w) + 1
  ∧ Zsum (map Z.abs (quantities (addToCart k w)))
    ≤ Zsum (map Z.abs (quantities w)) + 1.
Proof.
  unfold quantities. simpl cart. rewrite or_zero_default. split.
  - pose proof (Zsum_values_insert (λ x, x) (cart w) k
                  (default 0 (cart w !! k) + 1)) as E.
    rewrite !map_id in E. rewrite E. destruct (cart w !! k); simpl; lia.
  - rewrite (Zsum_values_insert Z.abs). destruct (cart w !! k); simpl; lia.
Qed.

Lemma cartItemCount_adds (adds : list string) w :
  Zsum (map Z.abs (quantities w)) + Z.of_nat (length adds) ≤ 2 ^ 53 →
  exact_sum (quantities (foldl (λ w a, addToCart a w) w adds))
  ∧ Zsum (quantities (foldl (λ w a, addToCart a w) w adds))
    = Zsum (quantities w) + Z.of_nat (length adds).
Proof.
  revert w. induction adds as [|a adds IH]; intros w H; simpl foldl.
  - simpl in *. unfold exact_sum. split; lia.
  - destruct (quantities_add a w) as [Es Ea].
    destruct (IH (addToCart a w)) as [Hx Hs].
    + simpl length in H. lia.
    + split; [done|]. rewrite Hs, Es. simpl length. lia.
Qed.

(** X12.  While the quantities on the Meals page (in absolute value) and
    the additions made add up to at most 2^53, the number on the cart
    button after any run of additions is the earlier number plus the number
    of additions, whether the added meals were in the cart or not; on a page
    mounted over an absent store it is 0. *)
Theorem cartItemCount_counts_additions (adds : list string) w :
  (Zsum (map Z.abs (quantities w)) + Z.of_nat (length adds) ≤ 2 ^ 53 →
   cartItemCount (foldl (λ w a, addToCart a w) w adds)
   = cartItemCount w + Z.of_nat (length adds))
  ∧ (localStorage w = None → cartItemCount (mountMeals w) = 0).
Proof.
  split.
  - intros H. destruct (cartItemCount_adds adds w H) as [Hx Hs].
    rewrite !cartItemCount_exact; [done| |done].
    unfold exact_sum. lia.
  - intros H. unfold mountMeals. by rewrite H.
Qed.

Lemma repeated_add_stored k n w :
  stored (foldl (λ w a, addToCart a w) (mountMeals w) (replicate (S n) k))
  = <[k := default 0 (stored w !! k) + Z.of_nat (S n)]> (stored w).
Proof.
  rewrite <- adds_sync by apply mountMeals_sync.
  rewrite adds_same_key.
  by rewrite mountMeals_sync, mountMeals_stored.
Qed.


(** X13.  On a mounted Meals page, adding the same meal n times (n at
    least 1), while its earlier quantity (in absolute value) plus n is at
    most 2^53, stores the earlier quantity plus n (n itself when it had no
    entry) and leaves every other entry as it was; each of the n increments
    is exact in binary64. *)
Theorem repeated_add_accumulates k n w :
  (0 < n)%nat →
  Z.abs (default 0 (stored w !! k)) + Z.of_nat n ≤ 2 ^ 53 →
  stored (foldl (λ w a, addToCart a w) (mountMeals w) (replicate n k))
  = <[k := default 0 (stored w !! k) + Z.of_nat n]> (stored w)
  ∧ (∀ i, (i < n)%nat →
       add64 (default 0 (stored w !! k) + Z.of_nat i) 1
       = default 0 (stored w !! k) + Z.of_nat i + 1).
Proof.
  intros Hn Hmax. split.
  - destruct n as [|n]; [lia|]. apply repeated_add_stored.
  - intros i Hi. unfold add64. apply round64_exact. lia.
Qed.

(** ** Refreshing the line items *)

Lemma keys_empty : keys ∅ = [].
Proof. unfold keys. by rewrite map_to_list_empty. Qed.

Lemma keys_nonempty (c : gmap string Z) : c ≠ ∅ → length (keys c) ≠ 0%nat.
Proof.
  intros Hc Hl. apply Hc. apply length_zero_iff_nil in Hl.
  by apply keys_empty_iff.
Qed.

(** X14.  Removing the only entry of the cart empties the line items at
    once, with no request to storage (the result is the same whatever the
    service would answer); the store then holds the empty mapping, and the
    one toast shown is the removal's. *)
Theorem removing_last_entry_needs_no_fetch be k (c : gmap string Z) w :
  localStorage w = Some c → delete k c = ∅ →
  cartItems (removeFromCart be k w) = []
  ∧ localStorage (removeFromCart be k w) = Some ∅
  ∧ toasts (removeFromCart be k w)
    = toasts w ++ [mkToast "removed from cart" None false]
  ∧ db (removeFromCart be k w) = db w.
Proof.
  intros Hl Hd. unfold removeFromCart, loadCartItems. rewrite Hl. simpl.
  rewrite Hd, keys_empty. done.
Qed.

(** X15.  When the refresh after a removal is rejected by storage, the
    entry is gone from the store but the page keeps its earlier line items,
    the removed one included, and shows the removal toast followed by the
    load error with the storage message. *)
Theorem failed_refresh_keeps_stale_items be k (c : gmap string Z) w message :
  localStorage w = Some c → delete k c ≠ ∅ →
  meals_select be = Reject message →
  stored (removeFromCart be k w) !! k = None
  ∧ cartItems (removeFromCart be k w) = cartItems w
  ∧ toasts (removeFromCart be k w)
    = toasts w ++ [mkToast "removed from cart" None false;
                   mkToast "error loading cart" (Some message) true].
Proof.
  intros Hl Hd Hs. split.
  - rewrite removeFromCart_stored. apply lookup_delete_eq.
  - unfold removeFromCart, loadCartItems, select_meals_in. rewrite Hl. simpl.
    rewrite bool_decide_eq_false_2 by by apply keys_nonempty.
    rewrite Hs. simpl. by rewrite <- app_assoc.
Qed.

(** X16.  With unique meal ids in the catalog, an accepted load gives line
    items with pairwise different ids, each for a catalog row and with the
    quantity stored for it, never more of them than the cart has entries;
    and every catalog row whose id is in the cart has its line item. *)
Theorem loaded_items_match_cart be (c : gmap string Z) w :
  localStorage w = Some c → meals_select be = Accept →
  NoDup (Meal.id <$> meals (db w)) →
  NoDup (CartItem.id <$> cartItems (loadCartItems be w))
  ∧ (∀ i, i ∈ cartItems (loadCartItems be w) →
       CartItem.meal i ∈ meals (db w)
       ∧ c !! CartItem.id i = Some (CartItem.quantity i))
  ∧ (length (cartItems (loadCartItems be w)) ≤ size c)%nat
  ∧ (∀ m q, m ∈ meals (db w) → c !! Meal.id m = Some q →
       CartItem.mk m q ∈ cartItems (loadCartItems be w)).
Proof.
  intros Hl Hs Hnd.
  pose proof (loadCartItems_accepted be w c Hl Hs) as E.
  assert (CartItem.id <$> cartItems (loadCartItems be w)
          = Meal.id <$> filter (λ m, Meal.id m ∈ keys c) (meals (db w))) as Hids.
  { rewrite E. simpl. unfold materialize.
    rewrite <- list_fmap_compose. done. }
  assert (NoDup (CartItem.id <$> cartItems (loadCartItems be w))) as Hnd'.
  { rewrite Hids. eapply sublist_NoDup; [exact Hnd|].
    apply fmap_sublist, sublist_filter. }
  split_and!.
  - done.
  - intros i Hi. split; [|by apply (loadCartItems_quantities be w c)].
    rewrite E in Hi. simpl in Hi. unfold materialize in Hi.
    apply list_elem_of_fmap in Hi as [m [-> Hm]].
    by apply list_elem_of_filter in Hm as [_ Hm].
  - rewrite <- (length_fmap CartItem.id), <- length_map_to_list.
    rewrite <- (length_fmap fst (map_to_list c)).
    apply submseteq_length, NoDup_submseteq; [done|].
    intros k Hk. rewrite Hids in Hk.
    apply list_elem_of_fmap in Hk as [m [-> Hm]].
    by apply list_elem_of_filter in Hm as [Hm _].
  - intros m q Hm Hq. rewrite E. simpl. unfold materialize.
    apply list_elem_of_fmap. exists m. split.
    + unfold index. by rewrite Hq.
    + apply list_elem_of_filter. split; [|done].
      apply elem_of_keys. by exists q.
Qed.


(** ** The further properties at concrete inputs *)

Lemma success_example : reported backend_accepting world_ready = [Success].
Proof.
  apply (success_exactly_when_all_accepted backend_accepting world_ready).
  split_and!; [vm_compute; discriminate|vm_compute; discriminate|by eexists|done..].
Defined.

Lemma missing_address_example :
  reported backend_accepting world_blank_empty = [RejectedInput missing_address].
Proof.
  apply (missing_address_iff_blank backend_accepting world_blank_empty).
  repeat constructor.
Defined.

Lemma signed_out_example :
  db (handlePlaceOrder backend_signed_out world_ready) = db_example
  ∧ localStorage (handlePlaceOrder backend_signed_out world_ready)
    = Some {["A" := 2]}
  ∧ toasts (handlePlaceOrder backend_signed_out world_ready) = []
  ∧ reported backend_signed_out world_ready = []
  ∧ navigated (handlePlaceOrder backend_signed_out world_ready) = ["/auth"]
  ∧ loading (handlePlaceOrder backend_signed_out world_ready) = true
  ∧ placeOrderDisabled (handlePlaceOrder backend_signed_out world_ready) = true.
Proof.
  apply (signed_out_redirects backend_signed_out world_ready).
  - vm_compute. discriminate.
  - vm_compute. discriminate.
  - reflexivity.
Defined.

Lemma retry_example :
  let w' := handlePlaceOrder backend_accepting_again
              (handlePlaceOrder backend_rejecting_lines world_ready) in
  orders (db w') =
    [Order.mk "o1" "u1" 37.8%float address_example "pending" "pending";
     Order.mk "o2" "u1" 37.8%float address_example "pending" "pending"]
  ∧ order_items (db w') = [OrderItem.mk "o2" "A" 2 18.9%float]
  ∧ localStorage w' = None.
Proof.
  apply (retry_after_rejected_lines_duplicates_order backend_rejecting_lines
           backend_accepting_again world_ready "u1" "permission denied").
  - vm_compute. discriminate.
  - vm_compute. discriminate.
  - reflexivity.
  - reflexivity.
  - reflexivity.
  - reflexivity.
  - reflexivity.
  - reflexivity.
Defined.

Lemma remount_example :
  let w1 := mountCheckout backend_meals_down
              (handlePlaceOrder backend_accepting world_ready) in
  let w2 := setDeliveryAddress address_example w1 in
  cartItems w1 = []
  ∧ toasts w1 = toasts (handlePlaceOrder backend_accepting world_ready)
  ∧ placeOrderDisabled w1 = true
  ∧ reported backend_accepting_again w2 = [RejectedInput empty_cart]
  ∧ db (handlePlaceOrder backend_accepting_again w2)
    = db (handlePlaceOrder backend_accepting world_ready).
Proof.
  apply (remount_after_success_is_empty backend_accepting backend_meals_down
           backend_accepting_again world_ready "u1" address_example).
  - vm_compute. discriminate.
  - vm_compute. discriminate.
  - reflexivity.
  - reflexivity.
  - reflexivity.
  - vm_compute. discriminate.
Defined.

Lemma enabled_button_example :
  reported backend_signed_out world_ready ≠ [RejectedInput empty_cart]
  ∧ (placeOrderDisabled (handlePlaceOrder backend_signed_out world_ready) = true
     ↔ trim (deliveryAddress world_ready) ≠ [] ∧ getUser backend_signed_out = None).
Proof.
  apply (enabled_button_outcomes backend_signed_out world_ready).
  reflexivity.
Defined.

Lemma positive_example :
  positive_quantities (stored (addToCart "A" world_example))
  ∧ positive_quantities (stored (updateQuantity backend_accepting "A" (-4) world_example))
  ∧ positive_quantities (stored (removeFromCart backend_accepting "A" world_example)).
Proof.
  apply (stored_quantities_stay_positive backend_accepting "A" (-4) world_example).
  - intros k q H. vm_compute in H. discriminate.
  - intros k q H. change (stored world_example) with ({["A" := 2]} : gmap string Z) in H.
    apply lookup_singleton_Some in H as [_ <-]. lia.
Defined.

Lemma compose_example :
  stored (updateQuantity backend_accepting "A" 3
            (updateQuantity backend_meals_down "A" 0 world_example))
  = stored (updateQuantity backend_accepting "A" 3 world_example).
Proof.
  destruct (cart_operations_compose backend_meals_down backend_accepting
              "A" "B" 0 3 world_example) as (_ & _ & E).
  - lia.
  - exact E.
Defined.

Lemma plus_minus_example :
  stored (clickMinus backend_accepting item_A3
            (clickPlus backend_accepting item_A2 world_ready))
  = {["A" := 2]}.
Proof.
  destruct (plus_then_minus_restores backend_accepting backend_accepting
              item_A2 item_A3 {["A" := 2]} world_ready) as (_ & E & _).
  - reflexivity.
  - reflexivity.
  - vm_compute. discriminate.
  - vm_compute. discriminate.
  - reflexivity.
  - reflexivity.
  - exact E.
Defined.

Lemma cartItemCount_example :
  cartItemCount (foldl (λ w a, addToCart a w) (mountMeals world_example)
                       ["A"; "B"; "A"])
  = cartItemCount (mountMeals world_example) + 3.
Proof.
  destruct (cartItemCount_counts_additions ["A"; "B"; "A"]
              (mountMeals world_example)) as (E & _).
  apply E. vm_compute. discriminate.
Defined.

Lemma repeated_add_example :
  stored (foldl (λ w a, addToCart a w) (mountMeals world_example)
                (replicate 2 "A"))
  = <["A" := 4]> {["A" := 2]}.
Proof.
  destruct (repeated_add_accumulates "A" 2 world_example) as (E & _).
  - lia.
  - vm_compute. discriminate.
  - exact E.
Defined.

Lemma removing_last_entry_example :
  cartItems (removeFromCart backend_meals_down "A" world_ready) = []
  ∧ localStorage (removeFromCart backend_meals_down "A" world_ready) = Some ∅
  ∧ toasts (removeFromCart backend_meals_down "A" world_ready)
    = [mkToast "removed from cart" None false]
  ∧ db (removeFromCart backend_meals_down "A" world_ready) = db_example.
Proof.
  apply (removing_last_entry_needs_no_fetch backend_meals_down "A"
           {["A" := 2]} world_ready).
  - reflexivity.
  - apply delete_singleton_eq.
Defined.

Lemma failed_refresh_example :
  stored (removeFromCart backend_meals_down "B" world_two_entries) !! "B" = None
  ∧ cartItems (removeFromCart backend_meals_down "B" world_two_entries) = []
  ∧ toasts (removeFromCart backend_meals_down "B" world_two_entries)
    = [mkToast "removed from cart" None false;
       mkToast "error loading cart" (Some "network error") true].
Proof.
  apply (failed_refresh_keeps_stale_items backend_meals_down "B"
           {["A" := 2; "B" := 1]} world_two_entries "network error").
  - reflexivity.
  - intros H. apply (f_equal (lookup "A")) in H. vm_compute in H. discriminate.
  - reflexivity.
Defined.

Lemma loaded_items_example :
  (length (cartItems (loadCartItems backend_accepting world_two_entries)) ≤ 2)%nat.
Proof.
  destruct (loaded_items_match_cart backend_accepting {["A" := 2; "B" := 1]}
              world_two_entries) as (_ & _ & L & _).
  - reflexivity.
  - reflexivity.
  - apply NoDup_singleton.
  - exact L.
Defined.

